(** * SafePath sensor scraper: the Normalizer, the snapshot store and the
      refresh loop of [SensorDataScraper.py], embedded and verified.

    The embedding follows the Python source function by function.  Python
    values that reach the snapshot are text or numbers; dictionaries keep
    their insertion order (it is the order [json.dump] prints), so they are
    association lists.  The libraries the source calls ([pandas], [json],
    [selenium]) are not part of the repository: their observable behaviour
    is written out where it is used and named in the comments. *)

From Stdlib Require Import String Ascii List Bool Arith Lia.
Import ListNotations.
Open Scope string_scope.
Open Scope list_scope.

(** ** Python values *)

(** A cell of the data frame or a value of a record.  [pandas.read_csv]
    yields text ([str]) or numbers ([float], with [nan] for an empty cell);
    a number is represented by its [repr], the text that both [str()] and
    [json.dump] print for it. *)
Inductive pyval : Type :=
| PStr (s : string)
| PNum (repr : string).

Definition pyval_eqb (a b : pyval) : bool :=
  match a, b with
  | PStr x, PStr y => String.eqb x y
  | PNum x, PNum y => String.eqb x y
  | _, _ => false
  end.

(** [str(v)] *)
Definition py_str (v : pyval) : string :=
  match v with
  | PStr s => s
  | PNum r => r
  end.

(** [sub in s] on two [str]: [sub] occurs in [s] as a contiguous run. *)
Fixpoint str_in (sub s : string) : bool :=
  if String.prefix sub s then true
  else match s with
       | EmptyString => false
       | String _ t => str_in sub t
       end.

(** [v in names] for a list of [str]: Python compares with [==], and a
    number never equals a [str]. *)
Definition py_in (v : pyval) (names : list string) : bool :=
  match v with
  | PStr s => existsb (String.eqb s) names
  | PNum _ => false
  end.

(** [category in [...]] on [str]. *)
Definition in_list (s : string) (l : list string) : bool :=
  existsb (String.eqb s) l.

(** [str.casefold()] on ASCII text, where it is [lower()]: the letters
    [A]..[Z] go to [a]..[z], every other character stays. *)
Definition casefold_char (c : ascii) : ascii :=
  let n := nat_of_ascii c in
  if Nat.leb 65 n && Nat.leb n 90 then ascii_of_nat (n + 32) else c.

Fixpoint casefold (s : string) : string :=
  match s with
  | EmptyString => EmptyString
  | String c t => String (casefold_char c) (casefold t)
  end.

(** ** The category registry *)

Definition SENSOR_CATEGORIES : list (string * list string) :=
  [ ("rain_gauge",
      [ "QCPU"; "Masambong"; "Batasan Hills"; "Ugong Norte"; "Ramon Magsaysay HS";
        "UP Village"; "Dona Imelda"; "Kaligayahan"; "Emilio Jacinto Sr HS"; "Payatas ES";
        "Ramon Magsaysay Brgy Hall"; "Phil-Am"; "Holy Spirit"; "Libis";
        "South Triangle"; "Nagkaisang Nayon"; "Tandang Sora"; "Talipapa";
        "Brgy Fairview (REC)"; "Brgy Baesa Hall"; "Brgy N.S Amoranto Hall"; "Brgy Valencia Hall" ]);
    ("flood_sensors",
      [ "North Fairview"; "Batasan-San Mateo"; "Bahay Toro"; "Sta Cruz"; "San Bartolome" ]);
    ("street_flood_sensors",
      [ "N.S. Amoranto Street"; "New Greenland"; "Kalantiaw Street"; "F. Calderon Street";
        "Christine Street"; "Ramon Magsaysay Brgy Hall"; "Phil-Am"; "Holy Spirit";
        "Libis"; "South Triangle"; "Nagkaisang Nayon"; "Tandang Sora"; "Talipapa" ]);
    ("flood_risk_index",
      [ "N.S. Amoranto Street"; "New Greenland"; "Kalantiaw Street"; "F. Calderon Street";
        "Christine Street"; "Ramon Magsaysay Brgy Hall"; "Phil-Am"; "Holy Spirit";
        "Libis"; "South Triangle"; "Nagkaisang Nayon"; "Tandang Sora"; "Talipapa" ]);
    ("earthquake_sensors", [ "QCDRRMO"; "QCDRRMO REC" ]) ].

(** [SENSOR_CATEGORIES[category]] *)
Fixpoint registry_of (reg : list (string * list string)) (category : string) : list string :=
  match reg with
  | [] => []
  | (k, names) :: rest => if String.eqb k category then names else registry_of rest category
  end.

(** ** Records, snapshots and the data frame *)

(** A [sensor_entry] dictionary: keys in insertion order. *)
Definition sensor_entry : Type := list (string * pyval).

(** [categorized_data]: category -> list of records, in registry order. *)
Definition snapshot : Type := list (string * list sensor_entry).

(** A row of the data frame read back from the CSV file. *)
Record Row : Type := mkRow {
  SENSOR_NAME : pyval;
  OBS_TIME : pyval;
  NORMAL_LEVEL : pyval;
  CURRENT : pyval;
  DESCRIPTION : pyval
}.

(** The data frame: [columns] is [df.columns]; the source looks it up for the
    two optional columns only, [SENSOR NAME] and [CURRENT] are always read. *)
Record DataFrame : Type := mkDataFrame {
  columns : list string;
  rows : list Row
}.

(** [entry[key]], [None] when the key is absent. *)
Fixpoint entry_get (key : string) (e : sensor_entry) : option pyval :=
  match e with
  | [] => None
  | (k, v) :: rest => if String.eqb k key then Some v else entry_get key rest
  end.

(** [categorized_data[category]] *)
Fixpoint bucket (category : string) (data : snapshot) : list sensor_entry :=
  match data with
  | [] => []
  | (k, v) :: rest => if String.eqb k category then v else bucket category rest
  end.

(** [categorized_data[category].append(entry)] *)
Fixpoint append_to (category : string) (e : sensor_entry) (data : snapshot) : snapshot :=
  match data with
  | [] => []
  | (k, v) :: rest =>
      if String.eqb k category then (k, v ++ [e]) :: rest
      else (k, v) :: append_to category e rest
  end.

(** ** The Normalizer: [convert_csv_to_json], lines 179-221 *)

(** [{category: [] for category in SENSOR_CATEGORIES}] *)
Definition empty_buckets (reg : list (string * list string)) : snapshot :=
  map (fun kv => (fst kv, @nil sensor_entry)) reg.

(** The body of the first loop, for one row. *)
Definition first_pass_category (current_value : pyval) : string :=
  if str_in "m" (py_str current_value) then "street_flood_sensors"
  else "flood_risk_index".

Definition first_pass_entry (cols : list string) (row : Row) : sensor_entry :=
  let sensor_name := SENSOR_NAME row in
  let current_value := CURRENT row in
  let normal_value :=
    if in_list "NORMAL LEVEL" cols then NORMAL_LEVEL row else PStr "N/A" in
  let description :=
    if in_list "DESCRIPTION" cols then DESCRIPTION row else PStr "N/A" in
  let entry := [("SENSOR NAME", sensor_name); ("CURRENT", current_value)] in
  if str_in "m" (py_str current_value)
  then entry ++ [("NORMAL LEVEL", normal_value); ("DESCRIPTION", description)]
  else entry.

Definition first_pass_row (cols : list string) (data : snapshot) (row : Row) : snapshot :=
  let category := first_pass_category (CURRENT row) in
  if py_in (SENSOR_NAME row) (registry_of SENSOR_CATEGORIES category)
  then append_to category (first_pass_entry cols row) data
  else data.

Definition first_pass (df : DataFrame) (data : snapshot) : snapshot :=
  fold_left (first_pass_row (columns df)) (rows df) data.

(** [df["SENSOR NAME"].str.casefold() == sensor_name.casefold()], one cell:
    a missing or numeric cell folds to [nan], which equals no text.  Whether
    the column offers [.str] at all is [str_accessor_ok] below. *)
Definition name_matches (sensor_name : string) (row : Row) : bool :=
  match SENSOR_NAME row with
  | PStr s => String.eqb (casefold s) (casefold sensor_name)
  | PNum _ => false
  end.

(** [df[...]]: the rows the mask keeps, in frame order. *)
Definition matching_sensor (df : DataFrame) (sensor_name : string) : list Row :=
  filter (name_matches sensor_name) (rows df).

(** The record built for one expected name in the second loop. *)
Definition matched_entry (cols : list string) (category sensor_name : string)
    (row0 : Row) : sensor_entry :=
  let normal_value :=
    if in_list "NORMAL LEVEL" cols then NORMAL_LEVEL row0 else PStr "N/A" in
  let current_value := CURRENT row0 in
  let description :=
    if in_list "DESCRIPTION" cols then DESCRIPTION row0 else PStr "N/A" in
  let entry := [("SENSOR NAME", PStr sensor_name); ("CURRENT", current_value)] in
  if in_list category ["flood_sensors"]
  then entry ++ [("NORMAL LEVEL", normal_value); ("DESCRIPTION", description)]
  else entry.

Definition sentinel_entry (category sensor_name : string) : sensor_entry :=
  let entry :=
    [("SENSOR NAME", PStr sensor_name);
     ("CURRENT", if String.eqb category "street_flood_sensors"
                 then PStr "0.0m" else PNum "0.0")] in
  if in_list category ["flood_sensors"]
  then entry ++ [("NORMAL LEVEL", PStr "N/A"); ("DESCRIPTION", PStr "N/A")]
  else entry.

Definition second_pass_entry (df : DataFrame) (category sensor_name : string) : sensor_entry :=
  match matching_sensor df sensor_name with
  | row0 :: _ => matched_entry (columns df) category sensor_name row0
  | [] => sentinel_entry category sensor_name
  end.

(** The inner loop [for sensor_name in sensors]. *)
Definition fill_category (df : DataFrame) (category : string) (sensors : list string)
    (data : snapshot) : snapshot :=
  fold_left
    (fun d sensor_name => append_to category (second_pass_entry df category sensor_name) d)
    sensors data.

(** The outer loop [for category, sensors in SENSOR_CATEGORIES.items()]. *)
Definition second_pass_over (reg : list (string * list string)) (df : DataFrame)
    (data : snapshot) : snapshot :=
  fold_left
    (fun d kv =>
       if negb (in_list (fst kv) ["street_flood_sensors"; "flood_risk_index"])
       then fill_category df (fst kv) (snd kv) d
       else d)
    reg data.

Definition second_pass (df : DataFrame) (data : snapshot) : snapshot :=
  second_pass_over SENSOR_CATEGORIES df data.

(** [categorized_data] as it stands at line 222, before it is written. *)
Definition categorize (df : DataFrame) : snapshot :=
  second_pass df (first_pass df (empty_buckets SENSOR_CATEGORIES)).

(** [df["SENSOR NAME"].str], line 200: pandas offers the accessor on a
    column of text (blank cells among the names do no harm) and on the
    column of a frame without rows; on a column it read as numbers, which
    is also what a column of blank cells only is, the accessor raises
    [AttributeError]. *)
Definition is_text (v : pyval) : bool :=
  match v with
  | PStr _ => true
  | PNum _ => false
  end.

Definition str_accessor_ok (df : DataFrame) : bool :=
  match rows df with
  | [] => true
  | _ :: _ => existsb (fun row => is_text (SENSOR_NAME row)) (rows df)
  end.

(** The names of the records of a bucket and how often one occurs. *)
Definition entry_name (e : sensor_entry) : option pyval := entry_get "SENSOR NAME" e.

Definition count_name (n : string) (l : list sensor_entry) : nat :=
  length (filter (fun e => match entry_name e with
                           | Some v => pyval_eqb v (PStr n)
                           | None => false
                           end) l).

(** ** Exceptions, files and the world *)

(** The exceptions the modelled operations raise; all are subclasses of
    Python's [Exception].  [PermissionError] and [IsADirectoryError] are
    [OSError]s that are not [FileNotFoundError]; [UnicodeDecodeError] is a
    [ValueError] that is not a [JSONDecodeError]. *)
Inductive exn : Type :=
| ValueError (msg : string)
| TimeoutError (msg : string)
| WebDriverException
| FileNotFoundError
| JSONDecodeError
| ReadCsvError
| OSError
| AttributeError
| PermissionError
| IsADirectoryError
| UnicodeDecodeError.

Inductive result (A : Type) : Type :=
| Ok (a : A)
| Raise (e : exn).
Arguments Ok {A} a.
Arguments Raise {A} e.

(** The state of [sensor_data.json] as [open] and [json.load] see it.
    [Invalid] is a file that exists and is not a JSON document: [json.load]
    raises [JSONDecodeError] on it.  A file that [open(..., "w")] has
    truncated and [json.dump] has not finished is in this state, since no
    proper prefix of a dumped object is a JSON document.  [Unreadable e] is a
    path on which reading fails with [e]: [open] raises (no permission, a
    directory) or the bytes cannot be decoded as text. *)
Inductive json_state : Type :=
| Absent
| Invalid
| Dumped (data : snapshot)
| Unreadable (e : exn).

(** [csv_file] is what [pd.read_csv(CSV_FILE_PATH)] returns on the current
    content of [sensor_data.csv], [None] when it raises. *)
Record World : Type := mkWorld {
  csv_file : option DataFrame;
  json_file : json_state
}.

(** What a run leaves behind besides the files. *)
Inductive event : Type :=
| PageLoad (attempt : nat)
| Sleep (seconds : nat)
| FindRows
| SaveCsv
| OpenJson
| DumpJson
| DriverQuit
| LogWarning (e : exn)
| LogError (e : exn).

(** Stateful, fallible code: a world in, a world, a trace and a result out.
    A raised exception keeps the world changes made before it. *)
Definition M (A : Type) : Type := World -> World * list event * result A.

Definition ret {A} (a : A) : M A := fun w => (w, [], Ok a).

Definition raise {A} (e : exn) : M A := fun w => (w, [], Raise e).

Definition bind {A B} (m : M A) (f : A -> M B) : M B :=
  fun w =>
    match m w with
    | (w1, t1, Ok a) =>
        match f a w1 with
        | (w2, t2, r) => (w2, t1 ++ t2, r)
        end
    | (w1, t1, Raise e) => (w1, t1, Raise e)
    end.

Notation "x <- m ;; k" := (bind m (fun x => k))
  (at level 61, m at next level, right associativity).
Notation "m ;; k" := (bind m (fun _ => k))
  (at level 61, right associativity).

Definition emit (ev : event) : M unit := fun w => (w, [ev], Ok tt).

Definition get_world : M World := fun w => (w, [], Ok w).

Definition set_csv (c : option DataFrame) : M unit :=
  fun w => (mkWorld c (json_file w), [], Ok tt).

Definition set_json (j : json_state) : M unit :=
  fun w => (mkWorld (csv_file w) j, [], Ok tt).

(** [try: m  except Exception as e: handler e] *)
Definition try_except {A} (m : M A) (handler : exn -> M A) : M A :=
  fun w =>
    match m w with
    | (w1, t1, Ok a) => (w1, t1, Ok a)
    | (w1, t1, Raise e) =>
        match handler e w1 with
        | (w2, t2, r) => (w2, t1 ++ t2, r)
        end
    end.

(** [try: m  finally: fin], for a [fin] that does not raise. *)
Definition try_finally {A} (m : M A) (fin : M unit) : M A :=
  fun w =>
    match m w with
    | (w1, t1, r) =>
        match fin w1 with
        | (w2, t2, _) => (w2, t1 ++ t2, r)
        end
    end.

Definition world_of {A} (o : World * list event * result A) : World := fst (fst o).
Definition trace_of {A} (o : World * list event * result A) : list event := snd (fst o).
Definition result_of {A} (o : World * list event * result A) : result A := snd o.

(** ** The Query API: [get_sensor_data], lines 226-235 *)

(** [open(SENSOR_DATA_FILE, "r")] followed by [json.load(f)]. *)
Definition load_json : M snapshot :=
  w <- get_world ;;
  match json_file w with
  | Absent => raise FileNotFoundError
  | Invalid => raise JSONDecodeError
  | Dumped data => ret data
  | Unreadable e => raise e
  end.

Definition get_sensor_data : M snapshot :=
  try_except load_json
    (fun e =>
       match e with
       | FileNotFoundError | JSONDecodeError => ret (empty_buckets SENSOR_CATEGORIES)
       | _ => raise e
       end).

(** ** The refresh cycle *)

(** The dictionaries [scrape_sensor_data] collects: stripped cell texts. *)
Record RawRow : Type := mkRawRow {
  raw_sensor_name : string;
  raw_obs_time : string;
  raw_normal_level : string;
  raw_current : string;
  raw_description : string
}.

(** What the outside world does during one cycle. [None] is no fault. *)
Record CycleEnv : Type := mkCycleEnv {
  driver_fault : option exn;            (* [setup_chrome_driver] raises *)
  load_faults : nat -> option exn;      (* attempt [k] of [driver.get]/[until] raises *)
  table : list (list string);           (* the [td] texts of every [tr] found;
                                           [find_elements] and [.text] are
                                           taken to return *)
  csv_fault : option (exn * option DataFrame);
                                        (* [to_csv] raises, leaving this content *)
  json_open_fault : option exn;         (* [open(SENSOR_DATA_FILE, "w")] raises *)
  json_write_fault : option exn;        (* [json.dump] raises while writing *)
  quit_fault : option exn               (* [driver.quit] raises *)
}.

(** Python's white space for [str.strip()] on ASCII text. *)
Definition is_space (c : ascii) : bool :=
  let n := nat_of_ascii c in
  (Nat.leb 9 n && Nat.leb n 13) || (Nat.leb 28 n && Nat.leb n 32).

Fixpoint lstrip (s : string) : string :=
  match s with
  | EmptyString => EmptyString
  | String c t => if is_space c then lstrip t else s
  end.

Fixpoint rstrip (s : string) : string :=
  match s with
  | EmptyString => EmptyString
  | String c t =>
      match rstrip t with
      | EmptyString => if is_space c then EmptyString else String c EmptyString
      | t' => String c t'
      end
  end.

Definition strip (s : string) : string := rstrip (lstrip s).

(** The loop of lines 140-154 for one [tr]: rows with fewer than five cells
    are skipped; the current level is the fourth cell, the normal level the
    third. *)
Definition row_dict (cols : list string) : list RawRow :=
  match cols with
  | c0 :: c1 :: c2 :: c3 :: c4 :: _ =>
      [ mkRawRow (strip c0) (strip c1) (strip c2) (strip c3) (strip c4) ]
  | _ => []
  end.

Definition extract_rows (trs : list (list string)) : list RawRow :=
  flat_map row_dict trs.

(** The frame [pd.read_csv] infers when every column is text. *)
Definition text_frame (sensor_data : list RawRow) : DataFrame :=
  mkDataFrame
    ["SENSOR NAME"; "OBS TIME"; "NORMAL LEVEL"; "CURRENT"; "DESCRIPTION"]
    (map (fun r => mkRow (PStr (raw_sensor_name r)) (PStr (raw_obs_time r))
                         (PStr (raw_normal_level r)) (PStr (raw_current r))
                         (PStr (raw_description r)))
         sensor_data).

Section RefreshCycle.

(** [pd.read_csv] applied to what [pd.DataFrame(sensor_data).to_csv] wrote:
    the column types pandas infers are its own business. *)
Variable read_back : list RawRow -> DataFrame.

(** [setup_chrome_driver], lines 74-109. *)
Definition setup_chrome_driver (env : CycleEnv) : M unit :=
  match driver_fault env with
  | Some e => emit (LogError e) ;; raise e
  | None => ret tt
  end.

(** [wait_for_page_load], lines 111-126: the loop over
    [range(max_retries)], [remaining] iterations before its end. *)
Fixpoint wait_loop (env : CycleEnv) (max_retries attempt remaining : nat) : M bool :=
  match remaining with
  | 0 => ret false
  | S remaining' =>
      emit (PageLoad attempt) ;;
      match load_faults env attempt with
      | None => ret true
      | Some e =>
          emit (LogWarning e) ;;
          if Nat.eqb attempt (max_retries - 1) then raise e
          else emit (Sleep 5) ;; wait_loop env max_retries (S attempt) remaining'
      end
  end.

Definition wait_for_page_load (env : CycleEnv) (max_retries : nat) : M bool :=
  wait_loop env max_retries 0 max_retries.

(** [save_csv], lines 172-175. *)
Definition save_csv (env : CycleEnv) (sensor_data : list RawRow) : M unit :=
  emit SaveCsv ;;
  match csv_fault env with
  | Some (e, remains) => set_csv remains ;; raise e
  | None => set_csv (Some (read_back sensor_data))
  end.

(** The two steps of lines 222-223, each atomic for an observer of the
    file: [open(SENSOR_DATA_FILE, "w")] truncates the file in place, and
    [json.dump] completes the document or raises on the way. *)
Definition open_json (env : CycleEnv) : M unit :=
  emit OpenJson ;;
  match json_open_fault env with
  | Some e => raise e
  | None => set_json Invalid
  end.

Definition dump_json (env : CycleEnv) (data : snapshot) : M unit :=
  emit DumpJson ;;
  match json_write_fault env with
  | Some e => raise e
  | None => set_json (Dumped data)
  end.

(** [pd.read_csv(CSV_FILE_PATH)], line 178. *)
Definition read_csv : M DataFrame :=
  w <- get_world ;;
  match csv_file w with
  | Some df => ret df
  | None => raise ReadCsvError
  end.

(** Lines 179-221 as a whole: the dictionary [categorize] builds, unless
    line 200 raises.  The second loop reaches line 200 on every frame, first
    for the first expected name of [rain_gauge], once the first loop is done
    and before anything is written. *)
Definition normalize (df : DataFrame) : result snapshot :=
  if str_accessor_ok df then Ok (categorize df) else Raise AttributeError.

Definition lift_result {A} (r : result A) : M A := fun w => (w, [], r).

(** [convert_csv_to_json], lines 177-224. *)
Definition convert_csv_to_json (env : CycleEnv) : M unit :=
  df <- read_csv ;;
  categorized_data <- lift_result (normalize df) ;;
  open_json env ;;
  dump_json env categorized_data.

(** The [finally] block of lines 165-170; [driver] is set exactly when
    [setup_chrome_driver] returned. *)
Definition quit_driver (env : CycleEnv) : M unit :=
  match driver_fault env with
  | Some _ => ret tt
  | None =>
      try_except
        (emit DriverQuit ;;
         match quit_fault env with
         | Some e => raise e
         | None => ret tt
         end)
        (fun e => emit (LogError e))
  end.

(** [scrape_sensor_data], lines 128-170. *)
Definition scrape_sensor_data (env : CycleEnv) : M unit :=
  try_finally
    (try_except
       (setup_chrome_driver env ;;
        loaded <- wait_for_page_load env 3 ;;
        if negb loaded
        then raise (TimeoutError "Failed to load page after multiple attempts")
        else
          emit FindRows ;;
          let sensor_data := extract_rows (table env) in
          match sensor_data with
          | [] => raise (ValueError "No sensor data extracted. Check website structure.")
          | _ :: _ =>
              save_csv env sensor_data ;;
              convert_csv_to_json env
          end)
       (fun e => emit (LogError e) ;; raise e))
    (quit_driver env).

(** One turn of the [while True] loop of [start_auto_scraper], lines
    239-245. *)
Definition scraper_iteration (env : CycleEnv) : M unit :=
  try_except (scrape_sensor_data env) (fun e => emit (LogError e)) ;;
  emit (Sleep 60).

(** The first [n] turns of the loop; [envs k] is the outside world during
    turn [k]. *)
Fixpoint start_auto_scraper (envs : nat -> CycleEnv) (k n : nat) : M unit :=
  match n with
  | 0 => ret tt
  | S n' => scraper_iteration (envs k) ;; start_auto_scraper envs (S k) n'
  end.

(** The worlds a concurrent reader can see while a sequence of atomic
    steps runs: the world before, and the world after each step that was
    reached. *)
Fixpoint observable (steps : list (M unit)) (w : World) : list World :=
  w :: match steps with
       | [] => []
       | step :: rest =>
           match step w with
           | (w', _, Ok _) => observable rest w'
           | (w', _, Raise _) => [w']
           end
       end.

(** The steps of [convert_csv_to_json] that touch the snapshot file. *)
Definition publish_steps (env : CycleEnv) (data : snapshot) : list (M unit) :=
  [open_json env; dump_json env data].

End RefreshCycle.

(** An outside world without faults that finds the rows [trs]. *)
Definition quiet_env (trs : list (list string)) : CycleEnv :=
  mkCycleEnv None (fun _ => None) trs None None None None.

(** Occurrences of the events that satisfy [p] in a trace. *)
Definition count_events (p : event -> bool) (t : list event) : nat :=
  length (filter p t).

Definition is_find (ev : event) : bool :=
  match ev with FindRows => true | _ => false end.

Definition is_write (ev : event) : bool :=
  match ev with SaveCsv | OpenJson | DumpJson => true | _ => false end.

Definition is_interval (ev : event) : bool :=
  match ev with Sleep 60 => true | _ => false end.

(** ** Reading a snapshot *)

(** The rows the first loop turns into a record of [category]. *)
Definition routed (category : string) (row : Row) : bool :=
  String.eqb (first_pass_category (CURRENT row)) category
  && py_in (SENSOR_NAME row) (registry_of SENSOR_CATEGORIES category).

(** The categories the second loop skips. *)
Definition first_pass_categories : list string :=
  ["street_flood_sensors"; "flood_risk_index"].

(** A frame with all five columns. *)
Definition full_columns : list string :=
  ["SENSOR NAME"; "OBS TIME"; "NORMAL LEVEL"; "CURRENT"; "DESCRIPTION"].

Definition frame (rs : list Row) : DataFrame := mkDataFrame full_columns rs.

(** A row of text cells: name, normal level, current value, description. *)
Definition text_row (name normal current description : string) : Row :=
  mkRow (PStr name) (PStr "") (PStr normal) (PStr current) (PStr description).

Definition is_dump (ev : event) : bool :=
  match ev with DumpJson => true | _ => false end.

(** A table with one usable row. *)
Definition one_row_table : list (list string) :=
  [["Libis"; "10:00"; "0.2m"; "0.3m"; "ok"]].


(** An outside world where only [json.dump] fails. *)
Definition dump_fault_env (trs : list (list string)) : CycleEnv :=
  mkCycleEnv None (fun _ => None) trs None None (Some OSError) None.

(** The snapshot of a frame without rows, and a world that holds it. *)
Definition sentinel_snapshot : snapshot := categorize (frame []).

Definition served_world : World := mkWorld None (Dumped sentinel_snapshot).

(** What a reader gets in a world. *)
Definition served (w : World) : result snapshot := result_of (get_sensor_data w).

(** ** Proof automation for the refresh cycle *)

Ltac run_cycle :=
  unfold scraper_iteration, scrape_sensor_data, quit_driver, convert_csv_to_json,
    read_csv, open_json, dump_json, save_csv, wait_for_page_load,
    setup_chrome_driver, try_finally, try_except, bind, emit, ret, raise,
    get_world, set_csv, set_json, lift_result, normalize;
  cbn -[categorize str_accessor_ok].

Ltac split_env env :=
  repeat (match goal with
          | |- context [driver_fault env] => destruct (driver_fault env) eqn:?
          | |- context [load_faults env ?k] => destruct (load_faults env k) eqn:?
          | |- context [extract_rows (table env)] =>
              destruct (extract_rows (table env)) eqn:?
          | |- context [csv_fault env] => destruct (csv_fault env) as [[? ?]|] eqn:?
          | |- context [json_open_fault env] => destruct (json_open_fault env) eqn:?
          | |- context [json_write_fault env] => destruct (json_write_fault env) eqn:?
          | |- context [quit_fault env] => destruct (quit_fault env) eqn:?
          | |- context [str_accessor_ok ?d] => destruct (str_accessor_ok d) eqn:?
          end; cbn -[categorize str_accessor_ok]).

Ltac no_attempt_loads H :=
  exfalso; destruct H as (k & Hk & E);
  assert (k = 0 \/ k = 1 \/ k = 2) as [-> | [-> | ->]] by lia; congruence.


(** ** Rows and the snapshot *)

(** The row with another [OBS TIME] cell. *)
Definition set_obs_time (v : pyval) (row : Row) : Row :=
  mkRow (SENSOR_NAME row) v (NORMAL_LEVEL row) (CURRENT row) (DESCRIPTION row).

(** Whether a loop of [convert_csv_to_json] takes anything from the row: the
    first loop when the name is in the registry list of the row's family,
    the second when the name matches an expected name of a category it
    fills. *)
Definition row_is_used (row : Row) : bool :=
  py_in (SENSOR_NAME row)
        (registry_of SENSOR_CATEGORIES (first_pass_category (CURRENT row)))
  || existsb
       (fun kv =>
          negb (in_list (fst kv) first_pass_categories)
          && existsb (fun n => name_matches n row) (snd kv))
       SENSOR_CATEGORIES.

(** The keys of the two record shapes. *)
Definition level_keys : list string :=
  ["SENSOR NAME"; "CURRENT"; "NORMAL LEVEL"; "DESCRIPTION"].

Definition plain_keys : list string := ["SENSOR NAME"; "CURRENT"].


(** ** Reading a trace of the refresh cycle *)

Definition is_load (ev : event) : bool :=
  match ev with PageLoad _ => true | _ => false end.

Definition is_retry_sleep (ev : event) : bool :=
  match ev with Sleep 5 => true | _ => false end.

Definition is_quit (ev : event) : bool :=
  match ev with DriverQuit => true | _ => false end.

(** The same outside world with another behaviour of [driver.quit]. *)
Definition with_quit_fault (q : option exn) (env : CycleEnv) : CycleEnv :=
  mkCycleEnv (driver_fault env) (load_faults env) (table env) (csv_fault env)
    (json_open_fault env) (json_write_fault env) q.

(** [len(cols) >= 5] *)
Definition has_five_cells (cols : list string) : bool := Nat.leb 5 (length cols).

(** * Properties *)

(** ** Text *)

Lemma prefix_app (sub s : string) :
  String.prefix sub s = true <-> exists post, s = (sub ++ post)%string.
Proof.
  revert s; induction sub as [|c sub IH]; intros s; simpl.
  - split; [intros _; exists s; reflexivity | intros _; destruct s; reflexivity].
  - destruct s as [|d s]; simpl.
    + split; [discriminate | intros [post H]; discriminate].
    + destruct (Ascii.ascii_dec c d) as [->|Hne].
      * rewrite IH. split; intros [post H]; exists post.
        -- now rewrite H.
        -- now injection H.
      * split; [discriminate|].
        intros [post H]. injection H as H1 _. congruence.
Qed.

Lemma str_in_unfold (sub s : string) :
  str_in sub s =
  if String.prefix sub s then true
  else match s with
       | EmptyString => false
       | String _ t => str_in sub t
       end.
Proof. destruct s; reflexivity. Qed.

(** [str_in] is Python's substring test. *)
Lemma str_in_spec (sub s : string) :
  str_in sub s = true <-> exists pre post, s = (pre ++ sub ++ post)%string.
Proof.
  split.
  - induction s as [|c t IH]; rewrite str_in_unfold;
      destruct (String.prefix sub _) eqn:P.
    + intros _. apply prefix_app in P as [post ->]. now exists EmptyString, post.
    + discriminate.
    + intros _. apply prefix_app in P as [post ->]. now exists EmptyString, post.
    + intros H. destruct (IH H) as (pre & post & ->).
      now exists (String c pre), post.
  - intros (pre & post & ->). induction pre as [|c pre IH].
    + rewrite str_in_unfold.
      replace (String.prefix sub (EmptyString ++ sub ++ post)%string) with true;
        [reflexivity|].
      symmetry. apply prefix_app. now exists post.
    + rewrite str_in_unfold.
      destruct (String.prefix sub _); [reflexivity|]. exact IH.
Qed.

Lemma in_list_In (s : string) (l : list string) :
  in_list s l = true <-> In s l.
Proof.
  unfold in_list. rewrite existsb_exists. split.
  - intros (x & Hin & Heq). apply String.eqb_eq in Heq. now subst.
  - intros Hin. exists s. split; [assumption | apply String.eqb_refl].
Qed.

(** ** Buckets *)

Lemma keys_append_to (c : string) (e : sensor_entry) (d : snapshot) :
  map fst (append_to c e d) = map fst d.
Proof.
  induction d as [|[k v] d IH]; simpl; [reflexivity|].
  destruct (String.eqb k c); simpl; [reflexivity | now rewrite IH].
Qed.

Lemma bucket_append_to_same (c : string) (e : sensor_entry) (d : snapshot) :
  In c (map fst d) -> bucket c (append_to c e d) = bucket c d ++ [e].
Proof.
  induction d as [|[k v] d IH]; simpl; [intros []|].
  intros H. destruct (String.eqb k c) eqn:E; simpl; rewrite E; [reflexivity|].
  apply IH. destruct H as [H|H]; [|assumption].
  apply String.eqb_neq in E. contradiction.
Qed.

Lemma bucket_append_to_other (c c' : string) (e : sensor_entry) (d : snapshot) :
  c <> c' -> bucket c' (append_to c e d) = bucket c' d.
Proof.
  intros Hne. induction d as [|[k v] d IH]; simpl; [reflexivity|].
  destruct (String.eqb k c) eqn:E; simpl.
  - apply String.eqb_eq in E. subst k.
    destruct (String.eqb c c') eqn:E'; [|reflexivity].
    apply String.eqb_eq in E'. contradiction.
  - destruct (String.eqb k c'); [reflexivity | exact IH].
Qed.

Lemma keys_first_pass_row (cols : list string) (d : snapshot) (r : Row) :
  map fst (first_pass_row cols d r) = map fst d.
Proof.
  unfold first_pass_row. destruct (py_in _ _); [apply keys_append_to | reflexivity].
Qed.

Lemma keys_first_pass_rows (cols : list string) (rs : list Row) (d : snapshot) :
  map fst (fold_left (first_pass_row cols) rs d) = map fst d.
Proof.
  revert d; induction rs as [|r rs IH]; intros d; simpl; [reflexivity|].
  now rewrite IH, keys_first_pass_row.
Qed.

Lemma keys_fill_category (df : DataFrame) (c : string) (sensors : list string)
    (d : snapshot) :
  map fst (fill_category df c sensors d) = map fst d.
Proof.
  unfold fill_category. revert d; induction sensors as [|s ss IH]; intros d; simpl;
    [reflexivity|].
  now rewrite IH, keys_append_to.
Qed.

Lemma bucket_fill_category_same (df : DataFrame) (c : string) (sensors : list string)
    (d : snapshot) :
  In c (map fst d) ->
  bucket c (fill_category df c sensors d)
  = bucket c d ++ map (second_pass_entry df c) sensors.
Proof.
  unfold fill_category. revert d; induction sensors as [|s ss IH]; intros d Hin; simpl.
  - now rewrite app_nil_r.
  - rewrite IH by (now rewrite keys_append_to).
    rewrite bucket_append_to_same by assumption.
    now rewrite <- app_assoc.
Qed.

Lemma bucket_fill_category_other (df : DataFrame) (c c' : string)
    (sensors : list string) (d : snapshot) :
  c <> c' -> bucket c' (fill_category df c sensors d) = bucket c' d.
Proof.
  intros Hne. unfold fill_category.
  revert d; induction sensors as [|s ss IH]; intros d; simpl; [reflexivity|].
  now rewrite IH, bucket_append_to_other.
Qed.

Lemma keys_empty_buckets (reg : list (string * list string)) :
  map fst (empty_buckets reg) = map fst reg.
Proof.
  unfold empty_buckets. rewrite map_map. reflexivity.
Qed.

Lemma keys_first_pass (df : DataFrame) :
  map fst (first_pass df (empty_buckets SENSOR_CATEGORIES))
  = map fst SENSOR_CATEGORIES.
Proof.
  unfold first_pass. now rewrite keys_first_pass_rows, keys_empty_buckets.
Qed.

(** ** The first loop *)

Lemma first_pass_category_cases (v : pyval) :
  first_pass_category v = "street_flood_sensors"
  \/ first_pass_category v = "flood_risk_index".
Proof. unfold first_pass_category. destruct (str_in _ _); auto. Qed.

Lemma bucket_first_pass_row (cols : list string) (c : string) (d : snapshot) (r : Row) :
  In c (map fst d) ->
  bucket c (first_pass_row cols d r)
  = bucket c d ++ (if routed c r then [first_pass_entry cols r] else []).
Proof.
  intros Hin. unfold first_pass_row, routed.
  destruct (String.eqb (first_pass_category (CURRENT r)) c) eqn:E; simpl.
  - apply String.eqb_eq in E. rewrite E.
    destruct (py_in _ _).
    + now apply bucket_append_to_same.
    + now rewrite app_nil_r.
  - apply String.eqb_neq in E. rewrite app_nil_r.
    destruct (py_in _ _); [now apply bucket_append_to_other | reflexivity].
Qed.

Lemma bucket_first_pass_rows (cols : list string) (c : string) (rs : list Row)
    (d : snapshot) :
  In c (map fst d) ->
  bucket c (fold_left (first_pass_row cols) rs d)
  = bucket c d ++ map (first_pass_entry cols) (filter (routed c) rs).
Proof.
  revert d; induction rs as [|r rs IH]; intros d Hin; simpl.
  - now rewrite app_nil_r.
  - rewrite IH by (now rewrite keys_first_pass_row).
    rewrite bucket_first_pass_row by assumption.
    rewrite <- app_assoc. f_equal.
    destruct (routed c r); reflexivity.
Qed.

Lemma bucket_empty_buckets (c : string) (reg : list (string * list string)) :
  bucket c (empty_buckets reg) = [].
Proof.
  induction reg as [|[k v] reg IH]; simpl; [reflexivity|].
  destruct (String.eqb k c); [reflexivity | exact IH].
Qed.

Lemma bucket_first_pass (df : DataFrame) (c : string) :
  In c (map fst SENSOR_CATEGORIES) ->
  bucket c (first_pass df (empty_buckets SENSOR_CATEGORIES))
  = map (first_pass_entry (columns df)) (filter (routed c) (rows df)).
Proof.
  intros Hin. unfold first_pass.
  rewrite bucket_first_pass_rows by (now rewrite keys_empty_buckets).
  now rewrite bucket_empty_buckets.
Qed.

Lemma routed_first_pass_only (c : string) (r : Row) :
  routed c r = true -> In c first_pass_categories.
Proof.
  unfold routed. intros H. apply andb_true_iff in H as [H _].
  apply String.eqb_eq in H. subst c.
  destruct (first_pass_category_cases (CURRENT r)) as [-> | ->]; simpl; auto.
Qed.

Lemma filter_routed_other (c : string) (rs : list Row) :
  ~ In c first_pass_categories -> filter (routed c) rs = [].
Proof.
  intros Hn. induction rs as [|r rs IH]; simpl; [reflexivity|].
  destruct (routed c r) eqn:E; [|exact IH].
  apply routed_first_pass_only in E. contradiction.
Qed.

(** ** The second loop *)

Lemma second_pass_skips (df : DataFrame) (c : string) (d : snapshot) :
  In c first_pass_categories -> bucket c (second_pass df d) = bucket c d.
Proof.
  intros Hin. unfold second_pass, second_pass_over. cbn -[fill_category].
  destruct Hin as [<- | [<- | []]];
    repeat (rewrite bucket_fill_category_other by discriminate); reflexivity.
Qed.

Lemma second_pass_fills (df : DataFrame) (c : string) (names : list string)
    (d : snapshot) :
  map fst d = map fst SENSOR_CATEGORIES ->
  In (c, names) SENSOR_CATEGORIES ->
  ~ In c first_pass_categories ->
  bucket c (second_pass df d) = bucket c d ++ map (second_pass_entry df c) names.
Proof.
  intros Hk Hin Hn. unfold second_pass, second_pass_over. cbn -[fill_category].
  assert (K : forall x, In x (map fst SENSOR_CATEGORIES) -> In x (map fst d))
    by (now rewrite Hk).
  simpl in Hin.
  destruct Hin as [H | [H | [H | [H | [H | []]]]]]; injection H as <- <-.
  - repeat (rewrite bucket_fill_category_other by discriminate).
    apply bucket_fill_category_same. apply K. simpl; auto.
  - rewrite bucket_fill_category_other by discriminate.
    rewrite bucket_fill_category_same
      by (rewrite keys_fill_category; apply K; simpl; auto).
    now rewrite bucket_fill_category_other by discriminate.
  - exfalso. apply Hn. simpl; auto.
  - exfalso. apply Hn. simpl; auto.
  - rewrite bucket_fill_category_same
      by (rewrite !keys_fill_category; apply K; simpl; auto 10).
    now repeat (rewrite bucket_fill_category_other by discriminate).
Qed.

(** The buckets of the snapshot, category by category. *)
Lemma categorize_first_pass_bucket (df : DataFrame) (c : string) :
  In c first_pass_categories ->
  bucket c (categorize df)
  = map (first_pass_entry (columns df)) (filter (routed c) (rows df)).
Proof.
  intros Hin. unfold categorize. rewrite second_pass_skips by assumption.
  apply bucket_first_pass. destruct Hin as [<- | [<- | []]]; simpl; auto.
Qed.

Lemma categorize_second_pass_bucket (df : DataFrame) (c : string) (names : list string) :
  In (c, names) SENSOR_CATEGORIES ->
  ~ In c first_pass_categories ->
  bucket c (categorize df) = map (second_pass_entry df c) names.
Proof.
  intros Hin Hn. unfold categorize.
  rewrite (second_pass_fills df c names) by (auto using keys_first_pass).
  rewrite bucket_first_pass by (apply (in_map fst) in Hin; exact Hin).
  now rewrite filter_routed_other.
Qed.

Lemma entry_name_second_pass_entry (df : DataFrame) (c n : string) :
  entry_name (second_pass_entry df c n) = Some (PStr n).
Proof.
  unfold second_pass_entry, matched_entry, sentinel_entry.
  destruct (matching_sensor df n); destruct (in_list c _); reflexivity.
Qed.

Lemma count_name_second_pass (df : DataFrame) (c n : string) (names : list string) :
  count_name n (map (second_pass_entry df c) names) = count_occ string_dec names n.
Proof.
  unfold count_name. induction names as [|a names IH]; simpl; [reflexivity|].
  rewrite entry_name_second_pass_entry. simpl.
  destruct (string_dec a n) as [->|Hne].
  - rewrite String.eqb_refl. simpl. now rewrite IH.
  - apply String.eqb_neq in Hne. rewrite Hne. exact IH.
Qed.

Lemma registry_names_once (c n : string) (names : list string) :
  In (c, names) SENSOR_CATEGORIES -> In n names -> count_occ string_dec names n = 1.
Proof.
  intros Hin Hn. simpl in Hin.
  destruct Hin as [H | [H | [H | [H | [H | []]]]]]; injection H as <- <-;
    simpl in Hn;
    repeat (destruct Hn as [<- | Hn]; [vm_compute; reflexivity|]);
    destruct Hn.
Qed.

(** ** C1: every expected name exactly once *)

(** C1, as stated, fails: the first loop fills [street_flood_sensors] and
    [flood_risk_index] from the rows alone.  On an empty frame the expected
    name [Libis] is absent from [street_flood_sensors]; on a frame with two
    rows named [Libis] it is there twice. *)
Lemma first_loop_names_not_exactly_once :
  In ("street_flood_sensors",
      registry_of SENSOR_CATEGORIES "street_flood_sensors") SENSOR_CATEGORIES
  /\ In "Libis" (registry_of SENSOR_CATEGORIES "street_flood_sensors")
  /\ count_name "Libis" (bucket "street_flood_sensors" (categorize (frame []))) = 0
  /\ count_name "Libis"
       (bucket "street_flood_sensors"
          (categorize (frame [text_row "Libis" "0.2m" "0.3m" "ok";
                              text_row "Libis" "0.2m" "0.4m" "ok"]))) = 2.
Proof.
  split; [simpl; auto|].
  split; [simpl; auto 12|].
  split; vm_compute; reflexivity.
Qed.

Lemma normalize_completes (df : DataFrame) :
  str_accessor_ok df = true -> normalize df = Ok (categorize df).
Proof. intros H. unfold normalize. now rewrite H. Qed.

Lemma normalize_raises (df : DataFrame) :
  str_accessor_ok df = false -> normalize df = Raise AttributeError.
Proof. intros H. unfold normalize. now rewrite H. Qed.

Lemma second_loop_buckets_of_categorize (df : DataFrame) (cat : string)
    (names : list string) :
  In (cat, names) SENSOR_CATEGORIES ->
  ~ In cat first_pass_categories ->
  map entry_name (bucket cat (categorize df)) = map (fun n => Some (PStr n)) names
  /\ (forall n, In n names -> count_name n (bucket cat (categorize df)) = 1)
  /\ (forall e, In e (bucket cat (categorize df)) ->
        exists n, In n names /\
          ((exists row0 others, matching_sensor df n = row0 :: others
                                /\ e = matched_entry (columns df) cat n row0)
           \/ (matching_sensor df n = [] /\ e = sentinel_entry cat n)))
  /\ (forall c, In c first_pass_categories ->
        bucket c (categorize df)
        = map (first_pass_entry (columns df)) (filter (routed c) (rows df))).
Proof.
  intros Hin Hn.
  rewrite (categorize_second_pass_bucket df cat names Hin Hn).
  repeat split.
  - rewrite map_map. apply map_ext. intros n. apply entry_name_second_pass_entry.
  - intros n Hnin. rewrite count_name_second_pass.
    now apply (registry_names_once cat).
  - intros e He. apply in_map_iff in He as (n & <- & Hnin).
    exists n. split; [assumption|].
    unfold second_pass_entry.
    destruct (matching_sensor df n) as [|row0 others]; [right | left]; eauto.
  - intros c Hc. now apply categorize_first_pass_bucket.
Qed.

(** C1, amended: on every frame on which the Normalizer completes, and it
    completes on the frame without rows and on every frame whose name column
    has a text cell, for every category that the second loop fills (all but
    [street_flood_sensors] and [flood_risk_index]) the bucket lists the
    registry's names in registry order, every expected name exactly once,
    and each record is built from the first matching row or is the sentinel
    record.  The two first-loop buckets hold one record for each row routed
    to them, in row order. *)
Theorem second_loop_names_exactly_once (df : DataFrame) (cat : string)
    (names : list string) :
  In (cat, names) SENSOR_CATEGORIES ->
  ~ In cat first_pass_categories ->
  str_accessor_ok df = true ->
  exists snap,
    normalize df = Ok snap
    /\ map entry_name (bucket cat snap) = map (fun n => Some (PStr n)) names
    /\ (forall n, In n names -> count_name n (bucket cat snap) = 1)
    /\ (forall e, In e (bucket cat snap) ->
          exists n, In n names /\
            ((exists row0 others, matching_sensor df n = row0 :: others
                                  /\ e = matched_entry (columns df) cat n row0)
             \/ (matching_sensor df n = [] /\ e = sentinel_entry cat n)))
    /\ (forall c, In c first_pass_categories ->
          bucket c snap
          = map (first_pass_entry (columns df)) (filter (routed c) (rows df))).
Proof.
  intros Hin Hn Hok. exists (categorize df).
  split; [now apply normalize_completes|].
  exact (second_loop_buckets_of_categorize df cat names Hin Hn).
Qed.

Lemma second_loop_names_exactly_once_witness :
  exists snap,
    normalize (frame [text_row "sta cruz" "1.0m" "1.1m" "ok";
                      text_row "Sta Cruz" "1.0m" "1.4m" "high"]) = Ok snap
    /\ count_name "Sta Cruz" (bucket "flood_sensors" snap) = 1.
Proof.
  destruct (second_loop_names_exactly_once
              (frame [text_row "sta cruz" "1.0m" "1.1m" "ok";
                      text_row "Sta Cruz" "1.0m" "1.4m" "high"])
              "flood_sensors"
              (registry_of SENSOR_CATEGORIES "flood_sensors"))
    as (snap & Hs & _ & Hc & _).
  - simpl; auto.
  - simpl. intros [H | [H | []]]; discriminate.
  - reflexivity.
  - exists snap. split; [exact Hs|]. apply Hc. simpl; auto.
Defined.

(** ** C2: a name of both first-loop registries lands in exactly one *)

Lemma py_in_text (s : string) (l : list string) :
  py_in (PStr s) l = true <-> In s l.
Proof. apply in_list_In. Qed.

Lemma routed_marker (c : string) (r : Row) :
  routed c r =
  (if str_in "m" (py_str (CURRENT r))
   then String.eqb "street_flood_sensors" c
   else String.eqb "flood_risk_index" c)
  && py_in (SENSOR_NAME r) (registry_of SENSOR_CATEGORIES c).
Proof.
  unfold routed, first_pass_category. destruct (str_in _ _); reflexivity.
Qed.

Lemma first_pass_bucket_split (cols : list string) (c : string) (pre post : list Row)
    (r : Row) :
  In c first_pass_categories ->
  bucket c (categorize (mkDataFrame cols (pre ++ r :: post)))
  = bucket c (categorize (mkDataFrame cols pre))
    ++ (if routed c r then [first_pass_entry cols r] else [])
    ++ bucket c (categorize (mkDataFrame cols post)).
Proof.
  intros Hc. rewrite !categorize_first_pass_bucket by assumption. simpl.
  rewrite filter_app, map_app. simpl.
  destruct (routed c r); reflexivity.
Qed.

(** C2: a row whose name is in both the [street_flood_sensors] and the
    [flood_risk_index] registry adds exactly one record to the snapshot.
    With an [m] in its current value the record goes to
    [street_flood_sensors] and carries the normal level and the description,
    and [flood_risk_index] gets nothing from the row; without one the record
    goes to [flood_risk_index] with the name and the current value only, and
    [street_flood_sensors] gets nothing. *)
Theorem shared_name_classified_once (cols : list string) (pre post : list Row)
    (r : Row) (n : string) :
  SENSOR_NAME r = PStr n ->
  In n (registry_of SENSOR_CATEGORIES "street_flood_sensors") ->
  In n (registry_of SENSOR_CATEGORIES "flood_risk_index") ->
  if str_in "m" (py_str (CURRENT r))
  then
    bucket "street_flood_sensors" (categorize (mkDataFrame cols (pre ++ r :: post)))
    = bucket "street_flood_sensors" (categorize (mkDataFrame cols pre))
      ++ [ [("SENSOR NAME", PStr n); ("CURRENT", CURRENT r);
            ("NORMAL LEVEL",
             if in_list "NORMAL LEVEL" cols then NORMAL_LEVEL r else PStr "N/A");
            ("DESCRIPTION",
             if in_list "DESCRIPTION" cols then DESCRIPTION r else PStr "N/A")] ]
      ++ bucket "street_flood_sensors" (categorize (mkDataFrame cols post))
    /\ bucket "flood_risk_index" (categorize (mkDataFrame cols (pre ++ r :: post)))
       = bucket "flood_risk_index" (categorize (mkDataFrame cols pre))
         ++ bucket "flood_risk_index" (categorize (mkDataFrame cols post))
  else
    bucket "flood_risk_index" (categorize (mkDataFrame cols (pre ++ r :: post)))
    = bucket "flood_risk_index" (categorize (mkDataFrame cols pre))
      ++ [ [("SENSOR NAME", PStr n); ("CURRENT", CURRENT r)] ]
      ++ bucket "flood_risk_index" (categorize (mkDataFrame cols post))
    /\ bucket "street_flood_sensors" (categorize (mkDataFrame cols (pre ++ r :: post)))
       = bucket "street_flood_sensors" (categorize (mkDataFrame cols pre))
         ++ bucket "street_flood_sensors" (categorize (mkDataFrame cols post)).
Proof.
  intros Hname Hs Hf.
  apply py_in_text in Hs. apply py_in_text in Hf.
  pose proof (first_pass_bucket_split cols "street_flood_sensors" pre post r
                (or_introl eq_refl)) as S1.
  pose proof (first_pass_bucket_split cols "flood_risk_index" pre post r
                (or_intror (or_introl eq_refl))) as S2.
  rewrite routed_marker in S1, S2.
  unfold first_pass_entry in S1, S2. rewrite Hname in S1, S2.
  rewrite Hs in S1. rewrite Hf in S2.
  change (String.eqb "flood_risk_index" "street_flood_sensors") with false in S1.
  change (String.eqb "street_flood_sensors" "flood_risk_index") with false in S2.
  destruct (str_in "m" (py_str (CURRENT r))).
  - rewrite String.eqb_refl in S1.
    cbn [andb app] in S1, S2. split; assumption.
  - rewrite String.eqb_refl in S2.
    cbn [andb app] in S1, S2. split; assumption.
Qed.

Lemma shared_name_classified_once_witness :
  (bucket "street_flood_sensors"
     (categorize (frame [text_row "Libis" "0.2m" "0.35m" "ok"]))
   = [ [("SENSOR NAME", PStr "Libis"); ("CURRENT", PStr "0.35m");
        ("NORMAL LEVEL", PStr "0.2m"); ("DESCRIPTION", PStr "ok")] ]
   /\ bucket "flood_risk_index"
        (categorize (frame [text_row "Libis" "0.2m" "0.35m" "ok"])) = [])
  /\ (bucket "flood_risk_index"
        (categorize (frame [text_row "Libis" "0.2m" "1.2" "ok"]))
      = [ [("SENSOR NAME", PStr "Libis"); ("CURRENT", PStr "1.2")] ]
      /\ bucket "street_flood_sensors"
           (categorize (frame [text_row "Libis" "0.2m" "1.2" "ok"])) = []).
Proof.
  split.
  - refine (shared_name_classified_once full_columns [] []
              (text_row "Libis" "0.2m" "0.35m" "ok") "Libis" eq_refl _ _);
      simpl; auto 12.
  - refine (shared_name_classified_once full_columns [] []
              (text_row "Libis" "0.2m" "1.2" "ok") "Libis" eq_refl _ _);
      simpl; auto 12.
Defined.

(** ** C4: the sentinel record of [flood_sensors] *)

Lemma matching_sensor_none (df : DataFrame) (n : string) :
  (forall row, In row (rows df) -> name_matches n row = false) ->
  matching_sensor df n = [].
Proof.
  unfold matching_sensor. intros H.
  induction (rows df) as [|r rs IH]; simpl; [reflexivity|].
  rewrite (H r) by (simpl; auto). apply IH. intros row Hr. apply H. simpl; auto.
Qed.

Lemma unmatched_flood_sensor_entry (df : DataFrame) (X : string) :
  In X (registry_of SENSOR_CATEGORIES "flood_sensors") ->
  (forall row, In row (rows df) -> name_matches X row = false) ->
  In [("SENSOR NAME", PStr X); ("CURRENT", PNum "0.0");
      ("NORMAL LEVEL", PStr "N/A"); ("DESCRIPTION", PStr "N/A")]
     (bucket "flood_sensors" (categorize df))
  /\ (forall e, In e (bucket "flood_sensors" (categorize df)) ->
        entry_name e = Some (PStr X) ->
        e = [("SENSOR NAME", PStr X); ("CURRENT", PNum "0.0");
             ("NORMAL LEVEL", PStr "N/A"); ("DESCRIPTION", PStr "N/A")]).
Proof.
  intros HX Hnone.
  rewrite (categorize_second_pass_bucket df "flood_sensors"
             (registry_of SENSOR_CATEGORIES "flood_sensors"))
    by first [ now (simpl; auto) | intros [H | [H | []]]; discriminate ].
  assert (E : second_pass_entry df "flood_sensors" X
              = [("SENSOR NAME", PStr X); ("CURRENT", PNum "0.0");
                 ("NORMAL LEVEL", PStr "N/A"); ("DESCRIPTION", PStr "N/A")]).
  { unfold second_pass_entry. now rewrite matching_sensor_none. }
  split.
  - rewrite <- E. now apply in_map.
  - intros e He Hname. apply in_map_iff in He as (n & <- & _).
    rewrite entry_name_second_pass_entry in Hname.
    injection Hname as ->. exact E.
Qed.

(** C4 fails on a frame whose name column has rows and no text cell.  No
    row matches the expected [flood_sensors] name [Bahay Toro], yet no
    sentinel record is emitted for it: line 200 raises
    [AttributeError], the conversion stops before the snapshot file is
    opened, and the file keeps what it held.  On a frame that differs only
    in having a name the sentinel branch of lines 213-221 does its work. *)
Theorem blank_names_raise_before_sentinels :
  In "Bahay Toro" (registry_of SENSOR_CATEGORIES "flood_sensors")
  /\ (forall row,
        In row (rows (frame [mkRow (PNum "nan") (PStr "10:00") (PStr "0.2m")
                               (PStr "0.3m") (PStr "ok")])) ->
        name_matches "Bahay Toro" row = false)
  /\ normalize (frame [mkRow (PNum "nan") (PStr "10:00") (PStr "0.2m")
                         (PStr "0.3m") (PStr "ok")])
     = Raise AttributeError
  /\ convert_csv_to_json (quiet_env [])
       (mkWorld (Some (frame [mkRow (PNum "nan") (PStr "10:00") (PStr "0.2m")
                                (PStr "0.3m") (PStr "ok")]))
          Absent)
     = (mkWorld (Some (frame [mkRow (PNum "nan") (PStr "10:00") (PStr "0.2m")
                                (PStr "0.3m") (PStr "ok")]))
          Absent,
        [], Raise AttributeError)
  /\ (exists snap,
        normalize (frame [mkRow (PStr "x") (PStr "10:00") (PStr "0.2m")
                            (PStr "0.3m") (PStr "ok")]) = Ok snap
        /\ In [("SENSOR NAME", PStr "Bahay Toro"); ("CURRENT", PNum "0.0");
               ("NORMAL LEVEL", PStr "N/A"); ("DESCRIPTION", PStr "N/A")]
              (bucket "flood_sensors" snap)).
Proof.
  split; [simpl; auto|].
  split; [intros row [<- | []]; reflexivity|].
  split; [reflexivity|].
  split; [reflexivity|].
  eexists. split; [reflexivity|]. vm_compute. auto.
Qed.

(** ** C8: matching by folded case in the second loop, exact in the first *)






(** ** C10: the unit marker is a substring test *)

(** C10: the first loop sends a row to the [street_flood_sensors] family
    exactly when the character [m] occurs somewhere in the text of its
    current value, and to the [flood_risk_index] family otherwise; the
    record carries normal level and description exactly in the first case.
    A current value such as [maintenance] or [1.2 mm/h] is therefore taken
    for a measured depth. *)
Theorem unit_marker_is_substring_test :
  (forall v : pyval,
      first_pass_category v = "street_flood_sensors"
      <-> exists pre post, py_str v = (pre ++ "m" ++ post)%string)
  /\ (forall v : pyval,
        first_pass_category v = "flood_risk_index"
        <-> ~ exists pre post, py_str v = (pre ++ "m" ++ post)%string)
  /\ (forall (cols : list string) (row : Row),
        (exists pre post, py_str (CURRENT row) = (pre ++ "m" ++ post)%string) ->
        first_pass_entry cols row
        = [("SENSOR NAME", SENSOR_NAME row); ("CURRENT", CURRENT row);
           ("NORMAL LEVEL",
            if in_list "NORMAL LEVEL" cols then NORMAL_LEVEL row else PStr "N/A");
           ("DESCRIPTION",
            if in_list "DESCRIPTION" cols then DESCRIPTION row else PStr "N/A")])
  /\ (forall (cols : list string) (row : Row),
        ~ (exists pre post, py_str (CURRENT row) = (pre ++ "m" ++ post)%string) ->
        first_pass_entry cols row
        = [("SENSOR NAME", SENSOR_NAME row); ("CURRENT", CURRENT row)])
  /\ bucket "street_flood_sensors"
       (categorize (frame [text_row "Libis" "0.2m" "maintenance" "offline"]))
     = [ [("SENSOR NAME", PStr "Libis"); ("CURRENT", PStr "maintenance");
          ("NORMAL LEVEL", PStr "0.2m"); ("DESCRIPTION", PStr "offline")] ]
  /\ bucket "flood_risk_index"
       (categorize (frame [text_row "Libis" "0.2m" "maintenance" "offline"])) = [].
Proof.
  assert (A : forall v, first_pass_category v = "street_flood_sensors"
                        <-> str_in "m" (py_str v) = true).
  { intros v. unfold first_pass_category.
    destruct (str_in "m" (py_str v)); split; intros H;
      try reflexivity; discriminate. }
  assert (B : forall v, first_pass_category v = "flood_risk_index"
                        <-> str_in "m" (py_str v) <> true).
  { intros v. unfold first_pass_category.
    destruct (str_in "m" (py_str v)); split; intros H;
      try reflexivity; try discriminate; congruence. }
  split; [intros v; rewrite A; apply str_in_spec|].
  split; [intros v; rewrite B, str_in_spec; reflexivity|].
  split.
  { intros cols row H. apply str_in_spec in H.
    unfold first_pass_entry. rewrite H. reflexivity. }
  split.
  { intros cols row H. unfold first_pass_entry.
    destruct (str_in "m" (py_str (CURRENT row))) eqn:E; [|reflexivity].
    apply str_in_spec in E. contradiction. }
  split; vm_compute; reflexivity.
Qed.

Lemma unit_marker_is_substring_test_witness :
  first_pass_entry full_columns (text_row "Libis" "0.2m" "1.2 mm/h" "rain")
  = [("SENSOR NAME", PStr "Libis"); ("CURRENT", PStr "1.2 mm/h");
     ("NORMAL LEVEL", PStr "0.2m"); ("DESCRIPTION", PStr "rain")].
Proof.
  refine (proj1 (proj2 (proj2 unit_marker_is_substring_test))
            full_columns (text_row "Libis" "0.2m" "1.2 mm/h" "rain") _).
  exists "1.2 ", "m/h". reflexivity.
Defined.

(** ** C7: what the Query API catches *)

Lemma get_sensor_data_run (w : World) :
  get_sensor_data w
  = (w, [],
     match json_file w with
     | Absent | Invalid => Ok (empty_buckets SENSOR_CATEGORIES)
     | Dumped data => Ok data
     | Unreadable FileNotFoundError | Unreadable JSONDecodeError =>
         Ok (empty_buckets SENSOR_CATEGORIES)
     | Unreadable e => Raise e
     end).
Proof.
  unfold get_sensor_data, try_except, load_json, bind, get_world, raise, ret.
  destruct (json_file w) as [| | data | e]; try reflexivity.
  destruct e; reflexivity.
Qed.

Lemma served_by_file (w1 w2 : World) :
  json_file w1 = json_file w2 -> served w1 = served w2.
Proof.
  intros H. unfold served. rewrite !get_sensor_data_run. cbn [result_of snd].
  now rewrite H.
Qed.

(** C7, as stated, fails for a snapshot file that is there but cannot be
    read: [open] or the decoding of its bytes raises an error that is neither
    [FileNotFoundError] nor [JSONDecodeError], line 232 does not catch it,
    and [get_sensor_data] raises it. *)
Lemma unreadable_snapshot_raises :
  result_of (get_sensor_data (mkWorld None (Unreadable PermissionError)))
  = Raise PermissionError
  /\ result_of (get_sensor_data (mkWorld None (Unreadable IsADirectoryError)))
     = Raise IsADirectoryError
  /\ result_of (get_sensor_data (mkWorld None (Unreadable UnicodeDecodeError)))
     = Raise UnicodeDecodeError.
Proof. repeat split. Qed.

(** C7, amended: [get_sensor_data] catches the two errors named on line 232
    and no other.  Without a snapshot file, or with a file that is not a JSON
    document, it returns the document that maps every category of the
    registry to the empty list; with a dumped snapshot it returns that
    snapshot; an error of reading other than those two leaves the function.
    In no case does it change a file. *)
Theorem get_sensor_data_catches_two_errors (w : World) :
  world_of (get_sensor_data w) = w
  /\ (json_file w = Absent \/ json_file w = Invalid ->
      result_of (get_sensor_data w) = Ok (empty_buckets SENSOR_CATEGORIES))
  /\ (forall data, json_file w = Dumped data ->
        result_of (get_sensor_data w) = Ok data)
  /\ (forall e, json_file w = Unreadable e ->
        result_of (get_sensor_data w)
        = match e with
          | FileNotFoundError | JSONDecodeError =>
              Ok (empty_buckets SENSOR_CATEGORIES)
          | _ => Raise e
          end)
  /\ map fst (empty_buckets SENSOR_CATEGORIES) = map fst SENSOR_CATEGORIES
  /\ (forall c, bucket c (empty_buckets SENSOR_CATEGORIES) = []).
Proof.
  rewrite get_sensor_data_run. cbn [world_of result_of fst snd].
  split; [reflexivity|].
  split; [intros [H | H]; rewrite H; reflexivity|].
  split; [intros data H; rewrite H; reflexivity|].
  split; [intros e H; rewrite H; destruct e; reflexivity|].
  split; [apply keys_empty_buckets | intros c; apply bucket_empty_buckets].
Qed.

Lemma get_sensor_data_catches_two_errors_witness :
  result_of (get_sensor_data (mkWorld None Invalid))
  = Ok (empty_buckets SENSOR_CATEGORIES).
Proof.
  refine (proj1 (proj2 (get_sensor_data_catches_two_errors (mkWorld None Invalid))) _).
  right. reflexivity.
Defined.

(** ** C5: an empty extraction aborts the cycle before anything is written *)

(** C5: when the driver starts, the page loads within the three attempts and
    no usable row is found, [scrape_sensor_data] raises the [ValueError] of
    line 157 and leaves both files as they were; the rows were looked up once
    and nothing was written, and the loop iteration around it leaves the
    world unchanged too. *)
Theorem empty_extraction_aborts (read_back : list RawRow -> DataFrame)
    (env : CycleEnv) (w : World) :
  driver_fault env = None ->
  (exists k, k < 3 /\ load_faults env k = None) ->
  extract_rows (table env) = [] ->
  result_of (scrape_sensor_data read_back env w)
  = Raise (ValueError "No sensor data extracted. Check website structure.")
  /\ world_of (scrape_sensor_data read_back env w) = w
  /\ count_events is_find (trace_of (scrape_sensor_data read_back env w)) = 1
  /\ count_events is_write (trace_of (scrape_sensor_data read_back env w)) = 0
  /\ world_of (scraper_iteration read_back env w) = w
  /\ count_events is_find (trace_of (scraper_iteration read_back env w)) = 1.
Proof.
  intros Hd Hl Hr. run_cycle. split_env env.
  all: try congruence.
  all: try (repeat split; reflexivity).
  all: no_attempt_loads Hl.
Qed.

Lemma empty_extraction_aborts_witness :
  result_of (scrape_sensor_data text_frame (quiet_env [["Libis"; "0.3m"]]) served_world)
  = Raise (ValueError "No sensor data extracted. Check website structure.")
  /\ world_of (scrape_sensor_data text_frame (quiet_env [["Libis"; "0.3m"]]) served_world)
     = served_world.
Proof.
  pose proof (empty_extraction_aborts text_frame (quiet_env [["Libis"; "0.3m"]])
                served_world eq_refl
                (ex_intro _ 0 (conj (Nat.lt_0_succ 2) eq_refl)) eq_refl) as H.
  exact (conj (proj1 H) (proj1 (proj2 H))).
Defined.

(** ** C9: the Normalizer run twice *)

Lemma convert_outcome (env : CycleEnv) (w : World) (df : DataFrame) :
  json_open_fault env = None -> json_write_fault env = None ->
  csv_file w = Some df ->
  convert_csv_to_json env w
  = if str_accessor_ok df
    then (mkWorld (Some df) (Dumped (categorize df)), [OpenJson; DumpJson], Ok tt)
    else (w, [], Raise AttributeError).
Proof.
  intros O D C.
  unfold convert_csv_to_json, read_csv, open_json, dump_json, bind, emit, ret,
    raise, get_world, set_json, lift_result, normalize.
  cbn -[categorize str_accessor_ok]. rewrite C. cbn -[categorize str_accessor_ok].
  destruct (str_accessor_ok df); cbn -[categorize str_accessor_ok];
    [|reflexivity].
  rewrite O. cbn -[categorize str_accessor_ok].
  rewrite D. cbn -[categorize str_accessor_ok]. now rewrite C.
Qed.

(** C9: [convert_csv_to_json], when its writes succeed, has the same outcome
    on the same CSV content whatever the snapshot file held before; when it
    completes, it leaves in the snapshot file the dump of [categorize] of the
    frame it read, the same file from any two worlds; run a second time it
    changes nothing.  It completes on every frame whose name column has a
    text cell, and on the frame without rows. *)
Theorem convert_twice_same_snapshot (env1 env2 : CycleEnv) (w1 w2 : World)
    (df : DataFrame) :
  json_open_fault env1 = None -> json_write_fault env1 = None ->
  json_open_fault env2 = None -> json_write_fault env2 = None ->
  csv_file w1 = Some df -> csv_file w2 = Some df ->
  result_of (convert_csv_to_json env1 w1) = result_of (convert_csv_to_json env2 w2)
  /\ (result_of (convert_csv_to_json env1 w1) = Ok tt ->
      json_file (world_of (convert_csv_to_json env1 w1)) = Dumped (categorize df)
      /\ json_file (world_of (convert_csv_to_json env2 w2))
         = json_file (world_of (convert_csv_to_json env1 w1)))
  /\ world_of (convert_csv_to_json env2 (world_of (convert_csv_to_json env1 w1)))
     = world_of (convert_csv_to_json env1 w1)
  /\ (str_accessor_ok df = true ->
      result_of (convert_csv_to_json env1 w1) = Ok tt).
Proof.
  intros O1 D1 O2 D2 C1 C2.
  rewrite (convert_outcome env1 w1 df O1 D1 C1), (convert_outcome env2 w2 df O2 D2 C2).
  destruct (str_accessor_ok df) eqn:A; cbn [result_of world_of fst snd json_file].
  - rewrite (convert_outcome env2 (mkWorld (Some df) (Dumped (categorize df))) df
               O2 D2 eq_refl), A.
    cbn [world_of fst]. repeat split.
  - rewrite (convert_outcome env2 w1 df O2 D2 C1), A.
    cbn [world_of fst].
    split; [reflexivity|]. split; [intros H; discriminate H|].
    split; [reflexivity | intros H; discriminate H].
Qed.

Lemma convert_twice_same_snapshot_witness :
  json_file
    (world_of
       (convert_csv_to_json (quiet_env [])
          (mkWorld (Some (frame [text_row "qcpu" "0" "12.5" "light"])) Absent)))
  = json_file
      (world_of
         (convert_csv_to_json (quiet_env [])
            (mkWorld (Some (frame [text_row "qcpu" "0" "12.5" "light"])) Invalid))).
Proof.
  symmetry.
  refine (proj2 (proj1 (proj2
           (convert_twice_same_snapshot (quiet_env []) (quiet_env [])
              (mkWorld (Some (frame [text_row "qcpu" "0" "12.5" "light"])) Absent)
              (mkWorld (Some (frame [text_row "qcpu" "0" "12.5" "light"])) Invalid)
              (frame [text_row "qcpu" "0" "12.5" "light"])
              eq_refl eq_refl eq_refl eq_refl eq_refl eq_refl)) _)).
  vm_compute. reflexivity.
Defined.

(** ** C3: publishing writes the snapshot file in place *)

Lemma observable_publish (env : CycleEnv) (data : snapshot) (w : World) :
  observable (publish_steps env data) w
  = w :: match json_open_fault env with
         | Some _ => [w]
         | None =>
             mkWorld (csv_file w) Invalid
             :: match json_write_fault env with
                | Some _ => [mkWorld (csv_file w) Invalid]
                | None => [mkWorld (csv_file w) (Dumped data)]
                end
         end.
Proof.
  unfold publish_steps, observable, open_json, dump_json, bind, emit, raise, set_json.
  destruct (json_open_fault env); [reflexivity|].
  destruct (json_write_fault env); reflexivity.
Qed.

(** C3, as stated, fails: the snapshot file itself is opened for writing,
    which empties it, and is filled afterwards; no temporary location is
    involved.  While a new snapshot replaces an old one a reader can find the
    file in a state that is neither: [json.load] rejects it, and the Query
    API answers with the empty document, which is neither the old nor the new
    snapshot. *)
Lemma publish_is_not_atomic :
  In (mkWorld None Invalid)
     (observable (publish_steps (quiet_env [])
                    (categorize (frame [text_row "qcpu" "0" "12.5" "light"])))
        served_world)
  /\ result_of (load_json (mkWorld None Invalid)) = Raise JSONDecodeError
  /\ served (mkWorld None Invalid) <> served served_world
  /\ served (mkWorld None Invalid)
     <> Ok (categorize (frame [text_row "qcpu" "0" "12.5" "light"])).
Proof.
  split; [right; left; reflexivity|].
  split; [reflexivity|].
  split; vm_compute; discriminate.
Qed.

(** C3, amended: publishing rewrites the snapshot file in place, first
    emptying it and then filling it.  Every state a concurrent reader can
    find holds the old content, no JSON document, or the complete new
    snapshot, so the Query API answers with what it served before, with the
    empty document, or with the new snapshot, never with a mix of old and new
    category data; when both steps succeed the last state holds the new
    snapshot, and it is the state [convert_csv_to_json] ends in. *)
Theorem publish_in_place_observations (env : CycleEnv) (data : snapshot)
    (w w' : World) :
  In w' (observable (publish_steps env data) w) ->
  csv_file w' = csv_file w
  /\ (json_file w' = json_file w \/ json_file w' = Invalid
      \/ json_file w' = Dumped data)
  /\ (served w' = served w
      \/ served w' = Ok (empty_buckets SENSOR_CATEGORIES)
      \/ served w' = Ok data)
  /\ (json_open_fault env = None -> json_write_fault env = None ->
      observable (publish_steps env data) w
      = [w; mkWorld (csv_file w) Invalid; mkWorld (csv_file w) (Dumped data)])
  /\ (forall df, csv_file w = Some df ->
        In (world_of (convert_csv_to_json env w))
           (observable (publish_steps env (categorize df)) w)).
Proof.
  intros Hin. rewrite observable_publish in Hin.
  assert (S : forall j, json_file w' = j -> served w' = served (mkWorld None j)).
  { intros j <-. unfold served. rewrite (get_sensor_data_run w').
    rewrite (get_sensor_data_run (mkWorld None (json_file w'))).
    reflexivity. }
  split; [|split; [|split; [|split]]].
  - destruct (json_open_fault env); [|destruct (json_write_fault env)];
      simpl in Hin; intuition (subst; reflexivity).
  - destruct (json_open_fault env); [|destruct (json_write_fault env)];
      simpl in Hin; intuition (subst; auto).
  - destruct (json_open_fault env); [|destruct (json_write_fault env)];
      simpl in Hin; intuition (subst; auto).
  - intros Ho Hw. rewrite observable_publish, Ho, Hw. reflexivity.
  - intros df Hdf. rewrite observable_publish.
    unfold convert_csv_to_json, read_csv, open_json, dump_json, bind, emit, ret,
      raise, get_world, set_json, world_of, lift_result, normalize.
    cbn -[categorize str_accessor_ok]. rewrite Hdf.
    cbn -[categorize str_accessor_ok].
    destruct (str_accessor_ok df); cbn -[categorize str_accessor_ok];
      [|left; reflexivity].
    destruct (json_open_fault env); cbn -[categorize]; [left; reflexivity|].
    destruct (json_write_fault env); cbn -[categorize]; rewrite ?Hdf;
      [right; left; reflexivity | right; right; left; reflexivity].
Qed.

Lemma publish_in_place_observations_witness :
  served (mkWorld None Invalid) = served served_world
  \/ served (mkWorld None Invalid) = Ok (empty_buckets SENSOR_CATEGORIES)
  \/ served (mkWorld None Invalid)
     = Ok (categorize (frame [text_row "qcpu" "0" "12.5" "light"])).
Proof.
  refine (proj1 (proj2 (proj2
            (publish_in_place_observations (quiet_env [])
               (categorize (frame [text_row "qcpu" "0" "12.5" "light"]))
               served_world (mkWorld None Invalid) _)))).
  right; left; reflexivity.
Defined.

(** ** C6: failures stay inside the cycle *)

Lemma count_events_app (p : event -> bool) (a b : list event) :
  count_events p (a ++ b) = count_events p a + count_events p b.
Proof.
  unfold count_events. now rewrite filter_app, length_app.
Qed.

Lemma scraper_iteration_returns (read_back : list RawRow -> DataFrame)
    (env : CycleEnv) (w : World) :
  exists w' t,
    scraper_iteration read_back env w = (w', t, Ok tt)
    /\ count_events is_interval t = 1.
Proof.
  run_cycle. split_env env; eexists; eexists; split; reflexivity.
Qed.

Lemma start_auto_scraper_returns (read_back : list RawRow -> DataFrame)
    (envs : nat -> CycleEnv) (n k : nat) (w : World) :
  exists w' t,
    start_auto_scraper read_back envs k n w = (w', t, Ok tt)
    /\ count_events is_interval t = n.
Proof.
  revert k w. induction n as [|n IH]; intros k w; simpl.
  - exists w, []. split; reflexivity.
  - destruct (scraper_iteration_returns read_back (envs k) w) as (w1 & t1 & E1 & C1).
    destruct (IH (S k) w1) as (w2 & t2 & E2 & C2).
    exists w2, (t1 ++ t2). unfold bind. rewrite E1, E2. split; [reflexivity|].
    rewrite count_events_app, C1, C2. reflexivity.
Qed.

(** C6, as stated, fails for a failure of [json.dump]: by then [open] has
    emptied the snapshot file.  The cycle fails, the loop goes on, and the
    snapshot served before is gone: the file is no JSON document and the
    Query API answers with the empty document. *)
Lemma dump_failure_loses_snapshot :
  result_of (scrape_sensor_data text_frame (dump_fault_env one_row_table) served_world)
  = Raise OSError
  /\ result_of (scraper_iteration text_frame (dump_fault_env one_row_table) served_world)
     = Ok tt
  /\ json_file
       (world_of (scraper_iteration text_frame (dump_fault_env one_row_table)
                    served_world))
     = Invalid
  /\ json_file served_world = Dumped sentinel_snapshot
  /\ served (world_of (scraper_iteration text_frame (dump_fault_env one_row_table)
                         served_world))
     <> served served_world.
Proof.
  repeat (split; [vm_compute; reflexivity|]).
  vm_compute. discriminate.
Qed.

(** C6, amended: every exception of a refresh cycle is caught in the loop,
    which returns from each turn, sleeps its interval and runs the next one.
    A cycle that fails in extraction (driver start, page load, no rows)
    leaves both files unchanged; one that fails while the CSV file is written
    or when the snapshot file is opened leaves the snapshot file unchanged, so
    the old snapshot is still served.  After any failed cycle the snapshot
    file is unchanged or is no JSON document. *)
Theorem cycle_failures_are_caught (read_back : list RawRow -> DataFrame) :
  (forall env w,
      result_of (scraper_iteration read_back env w) = Ok tt
      /\ count_events is_interval (trace_of (scraper_iteration read_back env w)) = 1)
  /\ (forall envs k n w,
        result_of (start_auto_scraper read_back envs k n w) = Ok tt
        /\ count_events is_interval
             (trace_of (start_auto_scraper read_back envs k n w)) = n)
  /\ (forall env w,
        driver_fault env <> None
        \/ (forall k, k < 3 -> load_faults env k <> None)
        \/ extract_rows (table env) = [] ->
        (exists e, result_of (scrape_sensor_data read_back env w) = Raise e)
        /\ world_of (scraper_iteration read_back env w) = w)
  /\ (forall env w,
        csv_fault env <> None \/ json_open_fault env <> None ->
        json_file (world_of (scraper_iteration read_back env w)) = json_file w
        /\ served (world_of (scraper_iteration read_back env w)) = served w)
  /\ (forall env w e,
        result_of (scrape_sensor_data read_back env w) = Raise e ->
        json_file (world_of (scraper_iteration read_back env w)) = json_file w
        \/ json_file (world_of (scraper_iteration read_back env w)) = Invalid).
Proof.
  split; [|split; [|split; [|split]]].
  - intros env w.
    destruct (scraper_iteration_returns read_back env w) as (w' & t & E & C).
    rewrite E. split; [reflexivity | exact C].
  - intros envs k n w.
    destruct (start_auto_scraper_returns read_back envs n k w) as (w' & t & E & C).
    rewrite E. split; [reflexivity | exact C].
  - intros env w H. run_cycle. split_env env.
    all: try (split; [eexists; reflexivity | reflexivity]).
    all: exfalso; destruct H as [H | [H | H]];
      [ congruence
      | first [ apply (H 0); [lia | assumption]
              | apply (H 1); [lia | assumption]
              | apply (H 2); [lia | assumption] ]
      | congruence ].
  - intros env w H.
    assert (J : json_file (world_of (scraper_iteration read_back env w))
                = json_file w).
    { run_cycle. split_env env.
      all: try reflexivity.
      all: exfalso; destruct H as [H | H]; congruence. }
    split; [exact J|].
    unfold served.
    rewrite (get_sensor_data_run _), (get_sensor_data_run w).
    cbn. now rewrite J.
  - intros env w e. run_cycle. split_env env.
    all: intros H; try discriminate H; auto.
Qed.

Lemma cycle_failures_are_caught_witness :
  json_file
    (world_of (scraper_iteration text_frame
                 (mkCycleEnv None (fun _ => None) one_row_table None
                    (Some OSError) None None)
                 served_world))
  = json_file served_world.
Proof.
  refine (proj1 (proj1 (proj2 (proj2 (proj2 (cycle_failures_are_caught text_frame))))
                   (mkCycleEnv None (fun _ => None) one_row_table None
                      (Some OSError) None None)
                   served_world _)).
  right. discriminate.
Defined.

(** * Further properties of the Normalizer *)

Lemma keys_second_pass (df : DataFrame) (d : snapshot) :
  map fst (second_pass df d) = map fst d.
Proof.
  unfold second_pass, second_pass_over. cbn -[fill_category].
  now rewrite !keys_fill_category.
Qed.

Lemma keys_categorize (df : DataFrame) :
  map fst (categorize df) = map fst SENSOR_CATEGORIES.
Proof.
  unfold categorize. now rewrite keys_second_pass, keys_first_pass.
Qed.

Lemma bucket_no_key (c : string) (d : snapshot) :
  ~ In c (map fst d) -> bucket c d = [].
Proof.
  induction d as [|[k v] d IH]; simpl; [reflexivity|].
  intros H. destruct (String.eqb k c) eqn:E.
  - apply String.eqb_eq in E. exfalso. apply H. now left.
  - apply IH. intros Hin. apply H. now right.
Qed.

(** X1: whatever the frame, the snapshot has exactly the five categories of
    the registry as keys, in registry order and without repetition; these are
    also the keys of the empty document the Query API falls back to. *)
Theorem snapshot_keys_are_the_registry (df : DataFrame) :
  map fst (categorize df)
  = ["rain_gauge"; "flood_sensors"; "street_flood_sensors"; "flood_risk_index";
     "earthquake_sensors"]
  /\ NoDup (map fst (categorize df))
  /\ map fst (categorize df) = map fst (empty_buckets SENSOR_CATEGORIES).
Proof.
  rewrite keys_categorize, keys_empty_buckets. split; [reflexivity|].
  split; [|reflexivity].
  simpl. repeat constructor; simpl; intuition discriminate.
Qed.

Lemma routed_street_marker (r : Row) :
  routed "street_flood_sensors" r = true -> str_in "m" (py_str (CURRENT r)) = true.
Proof.
  rewrite routed_marker. destruct (str_in _ _); [reflexivity | discriminate].
Qed.

Lemma routed_risk_marker (r : Row) :
  routed "flood_risk_index" r = true -> str_in "m" (py_str (CURRENT r)) = false.
Proof.
  rewrite routed_marker. destruct (str_in _ _); [discriminate | reflexivity].
Qed.

Lemma registry_cases (c : string) :
  In c (map fst SENSOR_CATEGORIES) ->
  c = "rain_gauge" \/ c = "flood_sensors" \/ c = "street_flood_sensors"
  \/ c = "flood_risk_index" \/ c = "earthquake_sensors".
Proof. simpl. intuition. Qed.

Lemma second_loop_bucket (df : DataFrame) (c : string) :
  In c ["rain_gauge"; "flood_sensors"; "earthquake_sensors"] ->
  bucket c (categorize df)
  = map (second_pass_entry df c) (registry_of SENSOR_CATEGORIES c).
Proof.
  intros H. apply categorize_second_pass_bucket.
  - simpl in H. destruct H as [<- | [<- | [<- | []]]]; simpl; auto 10.
  - simpl in H. destruct H as [<- | [<- | [<- | []]]];
      intros [E | [E | []]]; discriminate.
Qed.

Lemma keys_second_pass_entry (df : DataFrame) (c n : string) :
  map fst (second_pass_entry df c n)
  = if in_list c ["flood_sensors"] then level_keys else plain_keys.
Proof.
  unfold second_pass_entry, matched_entry, sentinel_entry.
  destruct (matching_sensor df n); destruct (in_list c ["flood_sensors"]);
    reflexivity.
Qed.

Lemma second_loop_bucket_keys (df : DataFrame) (c : string) (e : sensor_entry) :
  In c ["rain_gauge"; "flood_sensors"; "earthquake_sensors"] ->
  In e (bucket c (categorize df)) ->
  map fst e = if in_list c ["flood_sensors"] then level_keys else plain_keys.
Proof.
  intros Hc He. pose proof (second_loop_bucket df c Hc) as B.
  rewrite B in He. apply in_map_iff in He as (n & <- & _).
  apply keys_second_pass_entry.
Qed.

Lemma first_loop_bucket_keys (df : DataFrame) (c : string) (e : sensor_entry) :
  In c first_pass_categories ->
  In e (bucket c (categorize df)) ->
  map fst e
  = if String.eqb c "street_flood_sensors" then level_keys else plain_keys.
Proof.
  intros Hc He. pose proof (categorize_first_pass_bucket df c Hc) as B.
  rewrite B in He. apply in_map_iff in He as (r & <- & Hr).
  apply filter_In in Hr as [_ Hr]. unfold first_pass_entry.
  destruct Hc as [<- | [<- | []]].
  - apply routed_street_marker in Hr. rewrite Hr. reflexivity.
  - apply routed_risk_marker in Hr. rewrite Hr. reflexivity.
Qed.

(** X2: every record of the snapshot has the keys of its category, in this
    order: name, current value, normal level and description in
    [flood_sensors] and [street_flood_sensors]; name and current value alone
    in [rain_gauge], [flood_risk_index] and [earthquake_sensors]. *)
Theorem record_keys_by_category (df : DataFrame) (cat : string) (e : sensor_entry) :
  In e (bucket cat (categorize df)) ->
  map fst e
  = if in_list cat ["flood_sensors"; "street_flood_sensors"]
    then level_keys else plain_keys.
Proof.
  intros He.
  destruct (in_dec string_dec cat (map fst SENSOR_CATEGORIES)) as [Hc | Hc].
  - apply registry_cases in Hc.
    destruct Hc as [-> | [-> | [-> | [-> | ->]]]].
    + exact (second_loop_bucket_keys df "rain_gauge" e (or_introl eq_refl) He).
    + exact (second_loop_bucket_keys df "flood_sensors" e
               (or_intror (or_introl eq_refl)) He).
    + exact (first_loop_bucket_keys df "street_flood_sensors" e
               (or_introl eq_refl) He).
    + exact (first_loop_bucket_keys df "flood_risk_index" e
               (or_intror (or_introl eq_refl)) He).
    + exact (second_loop_bucket_keys df "earthquake_sensors" e
               (or_intror (or_intror (or_introl eq_refl))) He).
  - pose proof (bucket_no_key cat (categorize df)) as B.
    rewrite keys_categorize in B. rewrite (B Hc) in He. destruct He.
Qed.

Lemma record_keys_by_category_witness :
  map fst [("SENSOR NAME", PStr "Libis"); ("CURRENT", PStr "0.35m");
           ("NORMAL LEVEL", PStr "0.2m"); ("DESCRIPTION", PStr "ok")]
  = level_keys.
Proof.
  refine (record_keys_by_category (frame [text_row "Libis" "0.2m" "0.35m" "ok"])
            "street_flood_sensors" _ _).
  vm_compute. left. reflexivity.
Defined.

Lemma risk_registry_is_street_registry :
  registry_of SENSOR_CATEGORIES "flood_risk_index"
  = registry_of SENSOR_CATEGORIES "street_flood_sensors".
Proof. reflexivity. Qed.

Lemma routed_street_eq (r : Row) :
  routed "street_flood_sensors" r
  = str_in "m" (py_str (CURRENT r))
    && py_in (SENSOR_NAME r) (registry_of SENSOR_CATEGORIES "street_flood_sensors").
Proof.
  rewrite routed_marker. destruct (str_in "m" (py_str (CURRENT r))); reflexivity.
Qed.

Lemma routed_risk_eq (r : Row) :
  routed "flood_risk_index" r
  = negb (str_in "m" (py_str (CURRENT r)))
    && py_in (SENSOR_NAME r) (registry_of SENSOR_CATEGORIES "street_flood_sensors").
Proof.
  rewrite routed_marker, risk_registry_is_street_registry.
  destruct (str_in "m" (py_str (CURRENT r))); reflexivity.
Qed.

Lemma first_loop_lengths (rs : list Row) :
  length (filter (routed "street_flood_sensors") rs)
  + length (filter (routed "flood_risk_index") rs)
  = length (filter (fun r => py_in (SENSOR_NAME r)
                               (registry_of SENSOR_CATEGORIES "street_flood_sensors"))
              rs).
Proof.
  induction rs as [|r rs IH]; [reflexivity|].
  cbn [filter]. rewrite routed_street_eq, routed_risk_eq.
  destruct (str_in "m" (py_str (CURRENT r)));
    destruct (py_in (SENSOR_NAME r) _); cbn [andb negb length]; lia.
Qed.

(** X3: the first loop writes at most one record per row.  The records of
    [street_flood_sensors] and [flood_risk_index] together are as many as the
    rows whose name is, as written, in the (shared) registry list of the two
    categories, and never more than the rows of the frame. *)
Theorem first_loop_one_record_per_registered_row (df : DataFrame) :
  length (bucket "street_flood_sensors" (categorize df))
  + length (bucket "flood_risk_index" (categorize df))
  = length (filter (fun r => py_in (SENSOR_NAME r)
                               (registry_of SENSOR_CATEGORIES "street_flood_sensors"))
              (rows df))
  /\ length (bucket "street_flood_sensors" (categorize df))
     + length (bucket "flood_risk_index" (categorize df))
     <= length (rows df).
Proof.
  pose proof (categorize_first_pass_bucket df "street_flood_sensors"
                (or_introl eq_refl)) as S.
  pose proof (categorize_first_pass_bucket df "flood_risk_index"
                (or_intror (or_introl eq_refl))) as R.
  rewrite S, R, !length_map, first_loop_lengths.
  split; [reflexivity | apply filter_length_le].
Qed.

(** ** Duplicate rows *)

Lemma matching_sensor_first (cols : list string) (pre post : list Row) (r : Row)
    (n : string) :
  (forall row, In row pre -> name_matches n row = false) ->
  name_matches n r = true ->
  matching_sensor (mkDataFrame cols (pre ++ r :: post)) n
  = r :: filter (name_matches n) post.
Proof.
  intros Hpre Hr. unfold matching_sensor. cbn [rows].
  rewrite filter_app. cbn [filter]. rewrite Hr.
  replace (filter (name_matches n) pre) with (@nil Row); [reflexivity|].
  symmetry. induction pre as [|p pre IH]; [reflexivity|].
  cbn [filter]. rewrite (Hpre p) by (now left).
  apply IH. intros row Hin. apply Hpre. now right.
Qed.

(** X4: in the second loop the first matching row wins.  When a row matches
    an expected name and no earlier row does, the record of that name is
    built from this row, whatever rows follow, and the bucket holds no other
    record of that name. *)
Theorem first_matching_row_wins (cols : list string) (pre post : list Row)
    (r : Row) (cat n : string) (names : list string) :
  In (cat, names) SENSOR_CATEGORIES ->
  ~ In cat first_pass_categories ->
  In n names ->
  (forall row, In row pre -> name_matches n row = false) ->
  name_matches n r = true ->
  In (matched_entry cols cat n r)
     (bucket cat (categorize (mkDataFrame cols (pre ++ r :: post))))
  /\ (forall e,
        In e (bucket cat (categorize (mkDataFrame cols (pre ++ r :: post)))) ->
        entry_name e = Some (PStr n) ->
        e = matched_entry cols cat n r).
Proof.
  intros Hin Hn Hnin Hpre Hr.
  pose proof (categorize_second_pass_bucket
                (mkDataFrame cols (pre ++ r :: post)) cat names Hin Hn) as B.
  rewrite B.
  assert (E : second_pass_entry (mkDataFrame cols (pre ++ r :: post)) cat n
              = matched_entry cols cat n r).
  { unfold second_pass_entry. now rewrite matching_sensor_first. }
  split.
  - rewrite <- E. now apply in_map.
  - intros e He Hname. apply in_map_iff in He as (n' & <- & _).
    rewrite entry_name_second_pass_entry in Hname.
    injection Hname as ->. exact E.
Qed.

Lemma first_matching_row_wins_witness :
  In (matched_entry full_columns "flood_sensors" "Sta Cruz"
        (text_row "STA CRUZ" "1.0m" "1.1m" "ok"))
     (bucket "flood_sensors"
        (categorize
           (mkDataFrame full_columns
              ([text_row "Libis" "0.2m" "0.3m" "ok"]
               ++ text_row "STA CRUZ" "1.0m" "1.1m" "ok"
               :: [text_row "Sta Cruz" "1.0m" "1.9m" "high"])))).
Proof.
  refine (proj1 (first_matching_row_wins full_columns
                   [text_row "Libis" "0.2m" "0.3m" "ok"]
                   [text_row "Sta Cruz" "1.0m" "1.9m" "high"]
                   (text_row "STA CRUZ" "1.0m" "1.1m" "ok")
                   "flood_sensors" "Sta Cruz"
                   (registry_of SENSOR_CATEGORIES "flood_sensors") _ _ _ _ _)).
  - simpl; auto.
  - intros [H | [H | []]]; discriminate.
  - simpl; auto.
  - intros row [<- | []]. vm_compute. reflexivity.
  - vm_compute. reflexivity.
Defined.

(** ** Rows the Normalizer does not use *)

Lemma snapshot_ext (d1 d2 : snapshot) :
  map fst d1 = map fst d2 ->
  NoDup (map fst d1) ->
  (forall c, In c (map fst d1) -> bucket c d1 = bucket c d2) ->
  d1 = d2.
Proof.
  revert d2. induction d1 as [|[k v] d1 IH]; intros [|[k2 v2] d2] Hk Hnd Hb;
    try discriminate; [reflexivity|].
  simpl in Hk. injection Hk as <- Hk.
  inversion Hnd as [|? ? Hnotin Hnd']; subst.
  assert (v = v2).
  { specialize (Hb k (or_introl eq_refl)). simpl in Hb.
    now rewrite String.eqb_refl in Hb. }
  subst v2. f_equal. apply IH; try assumption.
  intros c Hc. specialize (Hb c (or_intror Hc)). simpl in Hb.
  destruct (String.eqb k c) eqn:E; [|exact Hb].
  apply String.eqb_eq in E. subst. contradiction.
Qed.

Lemma unused_not_routed (c : string) (r : Row) :
  row_is_used r = false -> routed c r = false.
Proof.
  unfold row_is_used, routed. intros H. apply orb_false_iff in H as [H _].
  destruct (String.eqb (first_pass_category (CURRENT r)) c) eqn:E; [|reflexivity].
  apply String.eqb_eq in E. subst c. now rewrite H.
Qed.

Lemma unused_not_matched (r : Row) (cat n : string) (names : list string) :
  row_is_used r = false ->
  In (cat, names) SENSOR_CATEGORIES ->
  ~ In cat first_pass_categories ->
  In n names ->
  name_matches n r = false.
Proof.
  unfold row_is_used. intros H Hin Hn Hnin.
  apply orb_false_iff in H as [_ H].
  destruct (name_matches n r) eqn:M; [|reflexivity].
  rewrite <- H. symmetry. apply existsb_exists.
  exists (cat, names). split; [assumption|]. cbn [fst snd].
  apply andb_true_iff. split.
  - apply negb_true_iff. destruct (in_list cat first_pass_categories) eqn:E;
      [|reflexivity].
    apply in_list_In in E. contradiction.
  - apply existsb_exists. exists n. auto.
Qed.

Lemma filter_drop_false {A} (p : A -> bool) (pre post : list A) (x : A) :
  p x = false -> filter p (pre ++ x :: post) = filter p (pre ++ post).
Proof.
  intros H. rewrite !filter_app. cbn [filter]. now rewrite H.
Qed.

Lemma categorize_without_unused_row (cols : list string) (pre post : list Row)
    (r : Row) :
  row_is_used r = false ->
  categorize (mkDataFrame cols (pre ++ r :: post))
  = categorize (mkDataFrame cols (pre ++ post)).
Proof.
  intros H. apply snapshot_ext.
  - now rewrite !keys_categorize.
  - rewrite keys_categorize. simpl.
    repeat constructor; simpl; intuition discriminate.
  - intros c Hc. rewrite keys_categorize in Hc.
    destruct (in_dec string_dec c first_pass_categories) as [Hf | Hf].
    + rewrite !categorize_first_pass_bucket by assumption. cbn [rows columns].
      now rewrite (filter_drop_false _ _ _ _ (unused_not_routed c r H)).
    + apply in_map_iff in Hc as ([c' names] & Hfst & Hin). cbn [fst] in Hfst.
      subst c'.
      rewrite !(categorize_second_pass_bucket _ c names Hin Hf).
      apply map_ext_in. intros n Hn.
      unfold second_pass_entry, matching_sensor. cbn [rows columns].
      now rewrite (filter_drop_false _ _ _ _
                     (unused_not_matched r c n names H Hin Hf Hn)).
Qed.

Lemma str_accessor_with_extra_row (cols : list string) (pre post : list Row)
    (r : Row) :
  pre ++ post <> [] ->
  str_accessor_ok (mkDataFrame cols (pre ++ post)) = true ->
  str_accessor_ok (mkDataFrame cols (pre ++ r :: post)) = true.
Proof.
  unfold str_accessor_ok. cbn [rows]. intros Hne H.
  destruct (pre ++ post) as [|x l] eqn:E; [now contradiction Hne|].
  rewrite <- E in H. rewrite existsb_app in H.
  destruct (pre ++ r :: post) as [|y l'] eqn:E'.
  - reflexivity.
  - rewrite <- E'. rewrite existsb_app. cbn [existsb].
    apply orb_true_iff in H as [H | H]; rewrite H;
      rewrite ?orb_true_r; reflexivity.
Qed.

(** X5: a row that neither loop uses is dropped without a trace: when its
    name is not in the registry list of its first-loop family and matches no
    expected name of a category the second loop fills, the Normalizer,
    completing with and without the row, gives the same snapshot.  A row with
    a blank (non-text) name cell among rows with names is always such a
    row. *)
Theorem unused_row_is_dropped :
  (forall (cols : list string) (pre post : list Row) (r : Row),
      row_is_used r = false ->
      str_accessor_ok (mkDataFrame cols (pre ++ r :: post)) = true ->
      str_accessor_ok (mkDataFrame cols (pre ++ post)) = true ->
      normalize (mkDataFrame cols (pre ++ r :: post))
      = normalize (mkDataFrame cols (pre ++ post))
      /\ normalize (mkDataFrame cols (pre ++ post))
         = Ok (categorize (mkDataFrame cols (pre ++ post))))
  /\ (forall (cols : list string) (pre post : list Row) (x : string)
             (obs normal current description : pyval),
        pre ++ post <> [] ->
        str_accessor_ok (mkDataFrame cols (pre ++ post)) = true ->
        normalize (mkDataFrame cols
                     (pre ++ mkRow (PNum x) obs normal current description :: post))
        = normalize (mkDataFrame cols (pre ++ post))
        /\ normalize (mkDataFrame cols (pre ++ post))
           = Ok (categorize (mkDataFrame cols (pre ++ post)))).
Proof.
  split.
  - intros cols pre post r H A1 A2.
    rewrite (normalize_completes _ A1), (normalize_completes _ A2).
    now rewrite (categorize_without_unused_row cols pre post r H).
  - intros cols pre post x obs normal current description Hne A2.
    pose proof (str_accessor_with_extra_row cols pre post
                  (mkRow (PNum x) obs normal current description) Hne A2) as A1.
    rewrite (normalize_completes _ A1), (normalize_completes _ A2).
    rewrite (categorize_without_unused_row cols pre post
               (mkRow (PNum x) obs normal current description));
      [split; reflexivity|].
    vm_compute. reflexivity.
Qed.

Lemma unused_row_is_dropped_witness :
  normalize (mkDataFrame full_columns
               ([text_row "Libis" "0.2m" "0.3m" "ok"]
                ++ mkRow (PNum "nan") (PStr "10:00") (PStr "1") (PStr "0.4m") (PStr "x")
                :: []))
  = normalize (mkDataFrame full_columns ([text_row "Libis" "0.2m" "0.3m" "ok"] ++ [])).
Proof.
  refine (proj1 (proj2 unused_row_is_dropped full_columns
                   [text_row "Libis" "0.2m" "0.3m" "ok"] []
                   "nan" (PStr "10:00") (PStr "1") (PStr "0.4m") (PStr "x") _ _)).
  - discriminate.
  - reflexivity.
Defined.

(** ** What a record is made of *)

Lemma first_pass_row_obs (cols : list string) (d : snapshot) (v : pyval) (r : Row) :
  first_pass_row cols d (set_obs_time v r) = first_pass_row cols d r.
Proof. reflexivity. Qed.

Lemma first_pass_rows_obs (cols : list string) (f : Row -> pyval) (rs : list Row)
    (d : snapshot) :
  fold_left (first_pass_row cols) (map (fun r => set_obs_time (f r) r) rs) d
  = fold_left (first_pass_row cols) rs d.
Proof.
  revert d. induction rs as [|r rs IH]; intros d; [reflexivity|].
  cbn [map fold_left]. rewrite first_pass_row_obs. apply IH.
Qed.

Lemma second_pass_entry_obs (cols : list string) (f : Row -> pyval) (rs : list Row)
    (c n : string) :
  second_pass_entry (mkDataFrame cols (map (fun r => set_obs_time (f r) r) rs)) c n
  = second_pass_entry (mkDataFrame cols rs) c n.
Proof.
  unfold second_pass_entry, matching_sensor. cbn [rows columns].
  induction rs as [|r rs IH]; [reflexivity|].
  cbn [map filter].
  change (name_matches n (set_obs_time (f r) r)) with (name_matches n r).
  destruct (name_matches n r); [reflexivity | exact IH].
Qed.

Lemma fill_category_ext (df1 df2 : DataFrame) (c : string) (sensors : list string)
    (d : snapshot) :
  (forall n, second_pass_entry df1 c n = second_pass_entry df2 c n) ->
  fill_category df1 c sensors d = fill_category df2 c sensors d.
Proof.
  intros H. unfold fill_category. revert d.
  induction sensors as [|s ss IH]; intros d; [reflexivity|].
  cbn [fold_left]. rewrite H. apply IH.
Qed.

Lemma second_pass_over_ext (reg : list (string * list string)) (df1 df2 : DataFrame)
    (d : snapshot) :
  (forall c n, second_pass_entry df1 c n = second_pass_entry df2 c n) ->
  second_pass_over reg df1 d = second_pass_over reg df2 d.
Proof.
  intros H. unfold second_pass_over. revert d.
  induction reg as [|[c names] reg IH]; intros d; [reflexivity|].
  cbn [fold_left fst snd].
  destruct (negb (in_list c ["street_flood_sensors"; "flood_risk_index"])).
  - rewrite (fill_category_ext df1 df2) by (intros n; apply H). apply IH.
  - apply IH.
Qed.

(** X6: the [OBS TIME] column never reaches the snapshot: replacing the
    cells of that column by anything else leaves the snapshot as it is. *)
Theorem obs_time_is_ignored (cols : list string) (f : Row -> pyval) (rs : list Row) :
  categorize (mkDataFrame cols (map (fun r => set_obs_time (f r) r) rs))
  = categorize (mkDataFrame cols rs).
Proof.
  unfold categorize, second_pass, first_pass. cbn [rows columns].
  rewrite first_pass_rows_obs.
  apply second_pass_over_ext. intros c n. apply second_pass_entry_obs.
Qed.

Lemma current_of_second_pass_entry (df : DataFrame) (c n : string) (v : pyval) :
  String.eqb c "street_flood_sensors" = false ->
  entry_get "CURRENT" (second_pass_entry df c n) = Some v ->
  v = PNum "0.0" \/ exists row, In row (rows df) /\ CURRENT row = v.
Proof.
  intros Hc. unfold second_pass_entry, matching_sensor.
  destruct (filter (name_matches n) (rows df)) as [|row0 others] eqn:E.
  - unfold sentinel_entry. rewrite Hc.
    destruct (in_list c ["flood_sensors"]); cbn; intros H; injection H as <-;
      now left.
  - assert (Hin : In row0 (rows df)).
    { assert (H0 : In row0 (filter (name_matches n) (rows df)))
        by (rewrite E; now left).
      now apply filter_In in H0. }
    unfold matched_entry.
    destruct (in_list c ["flood_sensors"]); cbn; intros H; injection H as <-;
      right; eauto.
Qed.

Lemma current_of_first_pass_entry (cols : list string) (r : Row) :
  entry_get "CURRENT" (first_pass_entry cols r) = Some (CURRENT r).
Proof.
  unfold first_pass_entry. destruct (str_in "m" (py_str (CURRENT r))); reflexivity.
Qed.

(** X7: the snapshot invents no reading but the number [0.0]: the current
    value of every record is the current value of a row of the frame, or is
    the sentinel number.  The text sentinel [0.0m] of line 216 is never
    written; a record shows [0.0m] only when a row does. *)
Theorem current_values_come_from_rows (df : DataFrame) (cat : string)
    (e : sensor_entry) (v : pyval) :
  In e (bucket cat (categorize df)) ->
  entry_get "CURRENT" e = Some v ->
  v = PNum "0.0" \/ exists row, In row (rows df) /\ CURRENT row = v.
Proof.
  intros He Hv.
  destruct (in_dec string_dec cat (map fst SENSOR_CATEGORIES)) as [Hc | Hc].
  - destruct (in_dec string_dec cat first_pass_categories) as [Hf | Hf].
    + pose proof (categorize_first_pass_bucket df cat Hf) as B.
      rewrite B in He. apply in_map_iff in He as (r & <- & Hr).
      apply filter_In in Hr as [Hr _].
      rewrite current_of_first_pass_entry in Hv. injection Hv as <-.
      right. eauto.
    + apply in_map_iff in Hc as ([c' names] & Hfst & Hin). cbn [fst] in Hfst.
      subst c'.
      pose proof (categorize_second_pass_bucket df cat names Hin Hf) as B.
      rewrite B in He. apply in_map_iff in He as (n & <- & _).
      apply (current_of_second_pass_entry df cat n); [|assumption].
      apply String.eqb_neq. intros ->. apply Hf. now left.
  - pose proof (bucket_no_key cat (categorize df)) as B.
    rewrite keys_categorize in B. rewrite (B Hc) in He. destruct He.
Qed.

Lemma current_values_come_from_rows_witness :
  PStr "12.5" = PNum "0.0"
  \/ exists row,
       In row (rows (frame [text_row "qcpu" "0" "12.5" "light"]))
       /\ CURRENT row = PStr "12.5".
Proof.
  refine (current_values_come_from_rows
            (frame [text_row "qcpu" "0" "12.5" "light"]) "rain_gauge"
            [("SENSOR NAME", PStr "QCPU"); ("CURRENT", PStr "12.5")]
            (PStr "12.5") _ _).
  - vm_compute. left. reflexivity.
  - reflexivity.
Defined.

(** ** Missing optional columns *)

Lemma optional_of_second_pass_entry (df : DataFrame) (c n key : string) :
  key = "NORMAL LEVEL" \/ key = "DESCRIPTION" ->
  in_list key (columns df) = false ->
  entry_get key (second_pass_entry df c n)
  = if in_list c ["flood_sensors"] then Some (PStr "N/A") else None.
Proof.
  intros Hk Hcol. unfold second_pass_entry, matched_entry, sentinel_entry.
  destruct Hk as [-> | ->]; rewrite Hcol;
    destruct (matching_sensor df n); destruct (in_list c ["flood_sensors"]);
    reflexivity.
Qed.

Lemma optional_of_first_pass_entry (cols : list string) (r : Row) (key : string) :
  key = "NORMAL LEVEL" \/ key = "DESCRIPTION" ->
  in_list key cols = false ->
  entry_get key (first_pass_entry cols r)
  = if str_in "m" (py_str (CURRENT r)) then Some (PStr "N/A") else None.
Proof.
  intros Hk Hcol. unfold first_pass_entry.
  destruct Hk as [-> | ->]; rewrite Hcol;
    destruct (str_in "m" (py_str (CURRENT r))); reflexivity.
Qed.

(** X8: a frame without the [NORMAL LEVEL] (or [DESCRIPTION]) column still
    yields complete records: in [flood_sensors] and [street_flood_sensors]
    every record carries the text [N/A] under that key, and the records of
    the other categories do not have the key. *)
Theorem missing_column_reads_not_available (df : DataFrame) (cat key : string)
    (e : sensor_entry) :
  key = "NORMAL LEVEL" \/ key = "DESCRIPTION" ->
  in_list key (columns df) = false ->
  In e (bucket cat (categorize df)) ->
  entry_get key e
  = if in_list cat ["flood_sensors"; "street_flood_sensors"]
    then Some (PStr "N/A") else None.
Proof.
  intros Hk Hcol He.
  destruct (in_dec string_dec cat (map fst SENSOR_CATEGORIES)) as [Hc | Hc].
  - apply registry_cases in Hc.
    destruct Hc as [-> | [-> | [-> | [-> | ->]]]].
    + pose proof (second_loop_bucket df "rain_gauge" (or_introl eq_refl)) as B.
      rewrite B in He. apply in_map_iff in He as (n & <- & _).
      exact (optional_of_second_pass_entry df "rain_gauge" n key Hk Hcol).
    + pose proof (second_loop_bucket df "flood_sensors"
                    (or_intror (or_introl eq_refl))) as B.
      rewrite B in He. apply in_map_iff in He as (n & <- & _).
      exact (optional_of_second_pass_entry df "flood_sensors" n key Hk Hcol).
    + pose proof (categorize_first_pass_bucket df "street_flood_sensors"
                    (or_introl eq_refl)) as B.
      rewrite B in He. apply in_map_iff in He as (r & <- & Hr).
      apply filter_In in Hr as [_ Hr]. apply routed_street_marker in Hr.
      rewrite (optional_of_first_pass_entry _ r key Hk Hcol), Hr. reflexivity.
    + pose proof (categorize_first_pass_bucket df "flood_risk_index"
                    (or_intror (or_introl eq_refl))) as B.
      rewrite B in He. apply in_map_iff in He as (r & <- & Hr).
      apply filter_In in Hr as [_ Hr]. apply routed_risk_marker in Hr.
      rewrite (optional_of_first_pass_entry _ r key Hk Hcol), Hr. reflexivity.
    + pose proof (second_loop_bucket df "earthquake_sensors"
                    (or_intror (or_intror (or_introl eq_refl)))) as B.
      rewrite B in He. apply in_map_iff in He as (n & <- & _).
      exact (optional_of_second_pass_entry df "earthquake_sensors" n key Hk Hcol).
  - pose proof (bucket_no_key cat (categorize df)) as B.
    rewrite keys_categorize in B. rewrite (B Hc) in He. destruct He.
Qed.

Lemma missing_column_reads_not_available_witness :
  entry_get "NORMAL LEVEL"
    [("SENSOR NAME", PStr "Libis"); ("CURRENT", PStr "0.35m");
     ("NORMAL LEVEL", PStr "N/A"); ("DESCRIPTION", PStr "ok")]
  = Some (PStr "N/A").
Proof.
  refine (missing_column_reads_not_available
            (mkDataFrame ["SENSOR NAME"; "CURRENT"; "DESCRIPTION"]
               [text_row "Libis" "0.2m" "0.35m" "ok"])
            "street_flood_sensors" "NORMAL LEVEL" _ (or_introl eq_refl) eq_refl _).
  vm_compute. left. reflexivity.
Defined.

(** ** Names shared between categories *)

Lemma name_matches_self (n : string) (r : Row) :
  SENSOR_NAME r = PStr n -> name_matches n r = true.
Proof.
  intros H. unfold name_matches. rewrite H. apply String.eqb_refl.
Qed.

(** X9: a name listed in [rain_gauge] and in the street registries is fed
    from one row twice.  The first row of that name fills the [rain_gauge]
    record, current value included, and the same row adds a record to
    [street_flood_sensors] or [flood_risk_index], whichever its current
    value selects. *)
Theorem shared_name_feeds_two_buckets (cols : list string) (pre post : list Row)
    (r : Row) (n : string) :
  SENSOR_NAME r = PStr n ->
  In n (registry_of SENSOR_CATEGORIES "rain_gauge") ->
  In n (registry_of SENSOR_CATEGORIES "street_flood_sensors") ->
  (forall row, In row pre -> name_matches n row = false) ->
  In [("SENSOR NAME", PStr n); ("CURRENT", CURRENT r)]
     (bucket "rain_gauge" (categorize (mkDataFrame cols (pre ++ r :: post))))
  /\ In (first_pass_entry cols r)
        (bucket (first_pass_category (CURRENT r))
           (categorize (mkDataFrame cols (pre ++ r :: post)))).
Proof.
  intros Hname Hrain Hstreet Hpre. split.
  - pose proof (second_loop_bucket (mkDataFrame cols (pre ++ r :: post))
                  "rain_gauge" (or_introl eq_refl)) as B.
    rewrite B. apply in_map_iff. exists n. split; [|assumption].
    unfold second_pass_entry.
    rewrite matching_sensor_first by (auto using name_matches_self).
    reflexivity.
  - assert (Hf : In (first_pass_category (CURRENT r)) first_pass_categories).
    { destruct (first_pass_category_cases (CURRENT r)) as [-> | ->]; simpl; auto. }
    pose proof (categorize_first_pass_bucket
                  (mkDataFrame cols (pre ++ r :: post)) _ Hf) as B.
    rewrite B. cbn [rows columns]. apply in_map. apply filter_In. split.
    + apply in_or_app. right. now left.
    + unfold routed. rewrite String.eqb_refl, Hname. cbn [andb].
      apply py_in_text.
      destruct (first_pass_category_cases (CURRENT r)) as [-> | ->];
        [|rewrite risk_registry_is_street_registry]; assumption.
Qed.

Lemma shared_name_feeds_two_buckets_witness :
  In [("SENSOR NAME", PStr "Libis"); ("CURRENT", PStr "0.3m")]
     (bucket "rain_gauge"
        (categorize (mkDataFrame full_columns
                       ([] ++ text_row "Libis" "0.2m" "0.3m" "ok" :: [])))).
Proof.
  refine (proj1 (shared_name_feeds_two_buckets full_columns [] []
                   (text_row "Libis" "0.2m" "0.3m" "ok") "Libis" eq_refl _ _ _)).
  - simpl; auto 20.
  - simpl; auto 20.
  - intros row [].
Defined.

(** ** The sentinel of [flood_sensors] *)

(** X20: on a frame on which the Normalizer completes (no rows, or a name
    column with a text cell), an expected [flood_sensors] name that no row
    matches gets the sentinel record: current value the number [0.0], normal
    level and description the text [N/A]; the bucket holds no other record
    of that name. *)
Theorem flood_sensor_sentinel_on_completion (df : DataFrame) (X : string) :
  str_accessor_ok df = true ->
  In X (registry_of SENSOR_CATEGORIES "flood_sensors") ->
  (forall row, In row (rows df) -> name_matches X row = false) ->
  exists snap,
    normalize df = Ok snap
    /\ In [("SENSOR NAME", PStr X); ("CURRENT", PNum "0.0");
           ("NORMAL LEVEL", PStr "N/A"); ("DESCRIPTION", PStr "N/A")]
          (bucket "flood_sensors" snap)
    /\ (forall e, In e (bucket "flood_sensors" snap) ->
          entry_name e = Some (PStr X) ->
          e = [("SENSOR NAME", PStr X); ("CURRENT", PNum "0.0");
               ("NORMAL LEVEL", PStr "N/A"); ("DESCRIPTION", PStr "N/A")]).
Proof.
  intros Hok HX Hnone. exists (categorize df).
  split; [now apply normalize_completes|].
  exact (unmatched_flood_sensor_entry df X HX Hnone).
Qed.

Lemma flood_sensor_sentinel_on_completion_witness :
  exists snap,
    normalize (frame [text_row "Sta Cruz" "1.0m" "1.1m" "ok"]) = Ok snap
    /\ In [("SENSOR NAME", PStr "Bahay Toro"); ("CURRENT", PNum "0.0");
           ("NORMAL LEVEL", PStr "N/A"); ("DESCRIPTION", PStr "N/A")]
          (bucket "flood_sensors" snap).
Proof.
  destruct (flood_sensor_sentinel_on_completion
              (frame [text_row "Sta Cruz" "1.0m" "1.1m" "ok"]) "Bahay Toro")
    as (snap & Hs & Hin & _).
  - reflexivity.
  - simpl; auto.
  - simpl. intros row [<- | []]. reflexivity.
  - exists snap. split; assumption.
Defined.

(** * Further properties of the refresh cycle *)

(** ** Page load and its retries *)

Lemma wait_loop_step (env : CycleEnv) (m a r : nat) (w : World) :
  wait_loop env m a (S r) w
  = match load_faults env a with
    | None => (w, [PageLoad a], Ok true)
    | Some e =>
        if Nat.eqb a (m - 1) then (w, [PageLoad a; LogWarning e], Raise e)
        else match wait_loop env m (S a) r w with
             | (w', t, res) => (w', PageLoad a :: LogWarning e :: Sleep 5 :: t, res)
             end
    end.
Proof.
  cbn [wait_loop]. unfold bind, emit, ret, raise.
  destruct (load_faults env a) as [e|]; [|reflexivity].
  destruct (Nat.eqb a (m - 1)); [reflexivity|].
  destruct (wait_loop env m (S a) r w) as [[w' t] res]. reflexivity.
Qed.

Lemma wait_loop_first_success (env : CycleEnv) (m : nat) (w : World) :
  forall k r a,
    a + r = m -> k < r ->
    load_faults env (a + k) = None ->
    (forall j, j < k -> load_faults env (a + j) <> None) ->
    exists t,
      wait_loop env m a r w = (w, t, Ok true)
      /\ count_events is_load t = S k
      /\ count_events is_retry_sleep t = k.
Proof.
  induction k as [|k IH]; intros r a Hm Hk Hnone Hbefore.
  - destruct r as [|r]; [lia|]. rewrite Nat.add_0_r in Hnone.
    exists [PageLoad a]. rewrite wait_loop_step, Hnone. auto.
  - destruct r as [|r]; [lia|].
    destruct (load_faults env a) as [e|] eqn:E.
    2:{ exfalso. apply (Hbefore 0); [lia|]. now rewrite Nat.add_0_r. }
    destruct (IH r (S a)) as (t & Et & Cl & Cs).
    + lia.
    + lia.
    + now replace (S a + k) with (a + S k) by lia.
    + intros j Hj. replace (S a + j) with (a + S j) by lia. apply Hbefore. lia.
    + exists (PageLoad a :: LogWarning e :: Sleep 5 :: t).
      rewrite wait_loop_step, E.
      replace (Nat.eqb a (m - 1)) with false
        by (symmetry; apply Nat.eqb_neq; lia).
      rewrite Et. unfold count_events in *. cbn [filter is_load is_retry_sleep length].
      rewrite Cl, Cs. auto.
Qed.

Lemma wait_loop_all_fail (env : CycleEnv) (m : nat) (w : World) :
  forall r a,
    a + r = m -> 0 < r ->
    (forall j, j < r -> load_faults env (a + j) <> None) ->
    exists t e,
      wait_loop env m a r w = (w, t, Raise e)
      /\ load_faults env (m - 1) = Some e
      /\ count_events is_load t = r
      /\ count_events is_retry_sleep t = r - 1.
Proof.
  induction r as [|r IH]; intros a Hm Hr Hall; [lia|].
  destruct (load_faults env a) as [e|] eqn:E.
  2:{ exfalso. apply (Hall 0); [lia|]. now rewrite Nat.add_0_r. }
  destruct r as [|r].
  - exists [PageLoad a; LogWarning e], e.
    rewrite wait_loop_step, E.
    replace (Nat.eqb a (m - 1)) with true
      by (symmetry; apply Nat.eqb_eq; lia).
    replace (m - 1) with a by lia. auto.
  - destruct (IH (S a)) as (t & e' & Et & El & Cl & Cs).
    + lia.
    + lia.
    + intros j Hj. replace (S a + j) with (a + S j) by lia. apply Hall. lia.
    + exists (PageLoad a :: LogWarning e :: Sleep 5 :: t), e'.
      rewrite wait_loop_step, E.
      replace (Nat.eqb a (m - 1)) with false
        by (symmetry; apply Nat.eqb_neq; lia).
      rewrite Et. unfold count_events in *.
      cbn [filter is_load is_retry_sleep length].
      rewrite Cl, Cs. repeat split; try assumption; lia.
Qed.

(** X10: [wait_for_page_load] stops at the first attempt that succeeds: when
    attempt [k] (counted from 0, within [max_retries]) is the first without
    an exception, it returns [True] after [k + 1] page loads and [k] pauses
    of five seconds, and changes no file. *)
Theorem page_load_stops_at_first_success (env : CycleEnv) (max_retries k : nat)
    (w : World) :
  k < max_retries ->
  load_faults env k = None ->
  (forall j, j < k -> load_faults env j <> None) ->
  result_of (wait_for_page_load env max_retries w) = Ok true
  /\ world_of (wait_for_page_load env max_retries w) = w
  /\ count_events is_load (trace_of (wait_for_page_load env max_retries w)) = S k
  /\ count_events is_retry_sleep (trace_of (wait_for_page_load env max_retries w)) = k.
Proof.
  intros Hk Hnone Hbefore. unfold wait_for_page_load.
  destruct (wait_loop_first_success env max_retries w k max_retries 0)
    as (t & E & Cl & Cs); auto.
  rewrite E. auto.
Qed.

Lemma page_load_stops_at_first_success_witness :
  result_of
    (wait_for_page_load
       (mkCycleEnv None (fun k => if Nat.eqb k 1 then None else Some WebDriverException)
          [] None None None None)
       3 served_world)
  = Ok true.
Proof.
  refine (proj1 (page_load_stops_at_first_success
                   (mkCycleEnv None
                      (fun k => if Nat.eqb k 1 then None else Some WebDriverException)
                      [] None None None None)
                   3 1 served_world _ eq_refl _)).
  - lia.
  - intros j Hj. assert (j = 0) as -> by lia. discriminate.
Defined.

(** X11: when every one of the [max_retries] attempts raises,
    [wait_for_page_load] raises the exception of the last attempt, after
    [max_retries] page loads and one pause less, and changes no file. *)
Theorem page_load_gives_up_with_last_error (env : CycleEnv) (max_retries : nat)
    (w : World) :
  0 < max_retries ->
  (forall j, j < max_retries -> load_faults env j <> None) ->
  exists e,
    load_faults env (max_retries - 1) = Some e
    /\ result_of (wait_for_page_load env max_retries w) = Raise e
    /\ world_of (wait_for_page_load env max_retries w) = w
    /\ count_events is_load (trace_of (wait_for_page_load env max_retries w))
       = max_retries
    /\ count_events is_retry_sleep (trace_of (wait_for_page_load env max_retries w))
       = max_retries - 1.
Proof.
  intros Hpos Hall. unfold wait_for_page_load.
  destruct (wait_loop_all_fail env max_retries w max_retries 0)
    as (t & e & E & El & Cl & Cs); auto.
  exists e. rewrite E. auto.
Qed.

Lemma page_load_gives_up_with_last_error_witness :
  exists e,
    Some (TimeoutError "until") = Some e
    /\ result_of
         (wait_for_page_load
            (mkCycleEnv None (fun _ => Some (TimeoutError "until")) [] None None None None)
            3 served_world)
       = Raise e.
Proof.
  destruct (page_load_gives_up_with_last_error
              (mkCycleEnv None (fun _ => Some (TimeoutError "until")) [] None None None None)
              3 served_world) as (e & H1 & H2 & _).
  - lia.
  - intros j _. discriminate.
  - exists e. split; assumption.
Defined.

Lemma wait_loop_never_false (env : CycleEnv) (m : nat) (w : World) :
  forall r a,
    a + r = m -> 0 < r ->
    exists t res,
      wait_loop env m a r w = (w, t, res)
      /\ res <> Ok false
      /\ 1 <= count_events is_load t <= r.
Proof.
  induction r as [|r IH]; intros a Hm Hr; [lia|].
  rewrite wait_loop_step.
  destruct (load_faults env a) as [e|].
  - destruct (Nat.eqb a (m - 1)) eqn:Q.
    + exists [PageLoad a; LogWarning e], (Raise e).
      split; [reflexivity|]. split; [discriminate|]. cbn. lia.
    + apply Nat.eqb_neq in Q.
      destruct (IH (S a)) as (t & res & Et & Hres & Hc); [lia | lia |].
      rewrite Et. exists (PageLoad a :: LogWarning e :: Sleep 5 :: t), res.
      split; [reflexivity|]. split; [assumption|].
      unfold count_events in *. cbn [filter is_load length]. lia.
  - exists [PageLoad a], (Ok true).
    split; [reflexivity|]. split; [discriminate|]. cbn. lia.
Qed.

(** X12: with at least one attempt allowed, [wait_for_page_load] never
    returns [False]: it returns [True] or raises, after at least one and at
    most [max_retries] page loads, and changes no file.  The [return False]
    of line 126 is what a call with [max_retries = 0] gives, without a page
    load. *)
Theorem page_load_never_returns_false (env : CycleEnv) (max_retries : nat)
    (w : World) :
  0 < max_retries ->
  result_of (wait_for_page_load env max_retries w) <> Ok false
  /\ world_of (wait_for_page_load env max_retries w) = w
  /\ 1 <= count_events is_load (trace_of (wait_for_page_load env max_retries w))
     <= max_retries
  /\ wait_for_page_load env 0 w = (w, [], Ok false).
Proof.
  intros Hpos. unfold wait_for_page_load.
  destruct (wait_loop_never_false env max_retries w max_retries 0)
    as (t & res & E & Hres & Hc); [lia | assumption |].
  rewrite E. split; [exact Hres|]. split; [reflexivity|]. split; [exact Hc|].
  reflexivity.
Qed.

Lemma page_load_never_returns_false_witness :
  result_of (wait_for_page_load (quiet_env []) 3 served_world) <> Ok false.
Proof.
  refine (proj1 (page_load_never_returns_false (quiet_env []) 3 served_world _)).
  lia.
Defined.

(** ** The rows taken from the page *)

Lemma row_dict_length (cols : list string) :
  length (row_dict cols) = if has_five_cells cols then 1 else 0.
Proof.
  destruct cols as [|c0 [|c1 [|c2 [|c3 [|c4 rest]]]]]; reflexivity.
Qed.

Lemma row_dict_firstn (cols : list string) :
  row_dict (firstn 5 cols) = row_dict cols.
Proof.
  destruct cols as [|c0 [|c1 [|c2 [|c3 [|c4 rest]]]]]; reflexivity.
Qed.

Lemma has_five_cells_spec (cols : list string) :
  has_five_cells cols = false <-> length cols < 5.
Proof.
  unfold has_five_cells. rewrite Nat.leb_gt. reflexivity.
Qed.

(** X13: [scrape_sensor_data] keeps exactly the table rows with five cells
    or more, one dictionary for each, in page order; cells after the fifth
    play no part.  It finds no sensor data, and raises, exactly when every
    row of the table has fewer than five cells. *)
Theorem extracted_rows_are_the_wide_rows (trs : list (list string)) :
  length (extract_rows trs) = length (filter has_five_cells trs)
  /\ (forall more, extract_rows (trs ++ more) = extract_rows trs ++ extract_rows more)
  /\ extract_rows (map (firstn 5) trs) = extract_rows trs
  /\ (extract_rows trs = [] <-> forall cols, In cols trs -> length cols < 5).
Proof.
  unfold extract_rows. split; [|split; [|split]].
  - induction trs as [|cols trs IH]; [reflexivity|].
    cbn [flat_map filter]. rewrite length_app, row_dict_length, IH.
    destruct (has_five_cells cols); reflexivity.
  - intros more. apply flat_map_app.
  - induction trs as [|cols trs IH]; [reflexivity|].
    cbn [map flat_map]. now rewrite row_dict_firstn, IH.
  - induction trs as [|cols trs IH].
    + split; [intros _ cols [] | reflexivity].
    + cbn [flat_map]. split.
      * intros H. apply app_eq_nil in H as [H1 H2].
        intros c [<- | Hc].
        -- apply has_five_cells_spec.
           pose proof (row_dict_length cols) as L. rewrite H1 in L.
           destruct (has_five_cells cols); [discriminate | reflexivity].
        -- now apply IH.
      * intros H.
        assert (R : row_dict cols = []).
        { pose proof (row_dict_length cols) as L.
          rewrite (proj2 (has_five_cells_spec cols) (H cols (or_introl eq_refl))) in L.
          now destruct (row_dict cols). }
        rewrite R. apply IH. intros c Hc. apply H. now right.
Qed.

(** ** A cycle that succeeds *)

Lemma successful_cycle_outcome (read_back : list RawRow -> DataFrame)
    (env : CycleEnv) (w : World) :
  driver_fault env = None ->
  (exists k, k < 3 /\ load_faults env k = None) ->
  extract_rows (table env) <> [] ->
  str_accessor_ok (read_back (extract_rows (table env))) = true ->
  csv_fault env = None ->
  json_open_fault env = None ->
  json_write_fault env = None ->
  result_of (scrape_sensor_data read_back env w) = Ok tt
  /\ world_of (scrape_sensor_data read_back env w)
     = mkWorld (Some (read_back (extract_rows (table env))))
         (Dumped (categorize (read_back (extract_rows (table env)))))
  /\ world_of (scraper_iteration read_back env w)
     = mkWorld (Some (read_back (extract_rows (table env))))
         (Dumped (categorize (read_back (extract_rows (table env))))).
Proof.
  intros Hd Hl Hr Ha Hc Ho Hw. run_cycle. split_env env.
  all: try congruence.
  all: try (repeat split; reflexivity).
  all: no_attempt_loads Hl.
Qed.

(** X14: a cycle in which the driver starts, the page loads within the three
    attempts, at least one usable row is found, the name column read back
    from the CSV file has a text cell and the writes succeed ends with the
    CSV file holding the scraped rows and the snapshot file holding the
    snapshot of the frame read back from them, whatever the two files held
    before; the Query API then serves exactly that snapshot. *)
Theorem successful_cycle_publishes (read_back : list RawRow -> DataFrame)
    (env : CycleEnv) (w : World) :
  driver_fault env = None ->
  (exists k, k < 3 /\ load_faults env k = None) ->
  extract_rows (table env) <> [] ->
  str_accessor_ok (read_back (extract_rows (table env))) = true ->
  csv_fault env = None ->
  json_open_fault env = None ->
  json_write_fault env = None ->
  result_of (scrape_sensor_data read_back env w) = Ok tt
  /\ world_of (scrape_sensor_data read_back env w)
     = mkWorld (Some (read_back (extract_rows (table env))))
         (Dumped (categorize (read_back (extract_rows (table env)))))
  /\ served (world_of (scrape_sensor_data read_back env w))
     = Ok (categorize (read_back (extract_rows (table env)))).
Proof.
  intros Hd Hl Hr Ha Hc Ho Hw.
  destruct (successful_cycle_outcome read_back env w Hd Hl Hr Ha Hc Ho Hw)
    as (R & W & _).
  split; [exact R|]. split; [exact W|].
  rewrite W. unfold served. now rewrite get_sensor_data_run.
Qed.

Lemma successful_cycle_publishes_witness :
  served (world_of (scrape_sensor_data text_frame (quiet_env one_row_table)
                      (mkWorld None Invalid)))
  = Ok (categorize (text_frame (extract_rows one_row_table))).
Proof.
  refine (proj2 (proj2 (successful_cycle_publishes text_frame
                          (quiet_env one_row_table) (mkWorld None Invalid)
                          eq_refl _ _ eq_refl eq_refl eq_refl eq_refl))).
  - exists 0. split; [lia | reflexivity].
  - discriminate.
Defined.

(** ** Closing the driver *)

(** X15: [driver.quit()] is called exactly once in a cycle whose driver
    started, whether the cycle succeeds or fails, and never in a cycle whose
    driver did not start; and an exception of [quit] is swallowed: it changes
    neither the result of the cycle nor the files. *)
Theorem driver_is_quit_once (read_back : list RawRow -> DataFrame)
    (env : CycleEnv) (w : World) (q : option exn) :
  count_events is_quit (trace_of (scrape_sensor_data read_back env w))
  = match driver_fault env with None => 1 | Some _ => 0 end
  /\ result_of (scrape_sensor_data read_back (with_quit_fault q env) w)
     = result_of (scrape_sensor_data read_back env w)
  /\ world_of (scrape_sensor_data read_back (with_quit_fault q env) w)
     = world_of (scrape_sensor_data read_back env w).
Proof.
  unfold with_quit_fault. run_cycle.
  change (flat_map row_dict (table env)) with (extract_rows (table env)).
  split_env env; destruct q; cbn -[categorize]; repeat split.
Qed.

(** ** The conversion and its files *)

(** X17: [convert_csv_to_json] never changes the CSV file, and whenever it
    fails before [json.dump] it leaves the snapshot file alone too: with a
    CSV file that cannot be read it raises at once; with a frame whose name
    column has rows and no text cell it raises [AttributeError] before
    opening the snapshot file; and when the snapshot file cannot be opened
    it raises that error. *)
Theorem convert_leaves_the_csv (env : CycleEnv) (w : World) :
  csv_file (world_of (convert_csv_to_json env w)) = csv_file w
  /\ (csv_file w = None ->
      convert_csv_to_json env w = (w, [], Raise ReadCsvError))
  /\ (forall df, csv_file w = Some df -> str_accessor_ok df = false ->
      convert_csv_to_json env w = (w, [], Raise AttributeError))
  /\ (forall df e, csv_file w = Some df -> str_accessor_ok df = true ->
      json_open_fault env = Some e ->
      world_of (convert_csv_to_json env w) = w
      /\ result_of (convert_csv_to_json env w) = Raise e).
Proof.
  unfold convert_csv_to_json, read_csv, open_json, dump_json, bind, emit, ret,
    raise, get_world, set_json, world_of, result_of, lift_result, normalize.
  cbn -[categorize str_accessor_ok].
  destruct (csv_file w) as [df|] eqn:C; cbn -[categorize str_accessor_ok].
  - destruct (str_accessor_ok df) eqn:A; cbn -[categorize str_accessor_ok].
    + destruct (json_open_fault env) as [eo|]; cbn -[categorize str_accessor_ok].
      * split; [exact C|]. split; [discriminate|].
        split; [intros d H; injection H as <-; congruence|].
        intros d e H _ He. injection He as <-. split; reflexivity.
      * destruct (json_write_fault env) as [ew|]; cbn -[categorize str_accessor_ok];
          (split; [first [reflexivity | exact C]|]; split; [discriminate|];
           split; [intros d H; injection H as <-; congruence|];
           intros d e _ _ He; discriminate He).
    + split; [exact C|]. split; [discriminate|].
      split; [reflexivity|].
      intros d e H Hd. injection H as <-. congruence.
  - split; [exact C|]. split; [reflexivity|].
    split; intros; discriminate.
Qed.

Lemma convert_leaves_the_csv_witness :
  convert_csv_to_json (quiet_env [])
    (mkWorld (Some (frame [mkRow (PNum "nan") (PStr "10:00") (PStr "0.2m")
                             (PStr "0.3m") (PStr "ok")]))
       (Dumped sentinel_snapshot))
  = (mkWorld (Some (frame [mkRow (PNum "nan") (PStr "10:00") (PStr "0.2m")
                             (PStr "0.3m") (PStr "ok")]))
       (Dumped sentinel_snapshot),
     [], Raise AttributeError).
Proof.
  exact (proj1 (proj2 (proj2
           (convert_leaves_the_csv (quiet_env [])
              (mkWorld (Some (frame [mkRow (PNum "nan") (PStr "10:00") (PStr "0.2m")
                                       (PStr "0.3m") (PStr "ok")]))
                 (Dumped sentinel_snapshot)))))
           (frame [mkRow (PNum "nan") (PStr "10:00") (PStr "0.2m")
                     (PStr "0.3m") (PStr "ok")])
           eq_refl eq_refl).
Defined.

(** ** The loop, turn after turn *)

Lemma bind_assoc_run {A B C} (m : M A) (f : A -> M B) (g : B -> M C) (w : World) :
  bind (bind m f) g w = bind m (fun a => bind (f a) g) w.
Proof.
  unfold bind. destruct (m w) as [[w1 t1] [a|e]]; [|reflexivity].
  destruct (f a w1) as [[w2 t2] [b|e]]; [|reflexivity].
  destruct (g b w2) as [[w3 t3] r]. now rewrite app_assoc.
Qed.

Lemma bind_ext_run {A B} (m : M A) (f g : A -> M B) (w : World) :
  (forall a w', f a w' = g a w') -> bind m f w = bind m g w.
Proof.
  intros H. unfold bind. destruct (m w) as [[w1 t1] [a|e]]; [|reflexivity].
  now rewrite H.
Qed.

Lemma start_auto_scraper_app (read_back : list RawRow -> DataFrame)
    (envs : nat -> CycleEnv) (n m k : nat) (w : World) :
  start_auto_scraper read_back envs k (n + m) w
  = bind (start_auto_scraper read_back envs k n)
      (fun _ => start_auto_scraper read_back envs (k + n) m) w.
Proof.
  revert k w. induction n as [|n IH]; intros k w.
  - cbn [Nat.add start_auto_scraper]. unfold bind, ret. rewrite Nat.add_0_r.
    destruct (start_auto_scraper read_back envs k m w) as [[w2 t2] r].
    reflexivity.
  - cbn [Nat.add start_auto_scraper]. rewrite bind_assoc_run.
    apply bind_ext_run. intros _ w'. rewrite IH.
    now replace (S k + n) with (k + S n) by lia.
Qed.

(** X18: the loop composes turn by turn: its first [n + m] turns are its
    first [n] turns followed by the next [m] turns, started in the world the
    first [n] left behind; the trace is the concatenation of the two
    traces. *)
Theorem loop_turns_compose (read_back : list RawRow -> DataFrame)
    (envs : nat -> CycleEnv) (n m k : nat) (w : World) :
  world_of (start_auto_scraper read_back envs k (n + m) w)
  = world_of (start_auto_scraper read_back envs (k + n) m
                (world_of (start_auto_scraper read_back envs k n w)))
  /\ trace_of (start_auto_scraper read_back envs k (n + m) w)
     = trace_of (start_auto_scraper read_back envs k n w)
       ++ trace_of (start_auto_scraper read_back envs (k + n) m
                      (world_of (start_auto_scraper read_back envs k n w))).
Proof.
  rewrite start_auto_scraper_app. unfold bind.
  destruct (start_auto_scraper_returns read_back envs n k w) as (w1 & t1 & E1 & _).
  rewrite E1. cbn [world_of trace_of fst snd].
  destruct (start_auto_scraper read_back envs (k + n) m w1) as [[w2 t2] r].
  split; reflexivity.
Qed.

(** X19: the loop recovers by itself: whatever happened in the turns before
    and whatever state they left the files in, after a turn whose cycle
    succeeds (driver, page load, rows, a name column with a text cell and
    the writes) the snapshot file holds the snapshot of that cycle's rows
    and the Query API serves it. *)
Theorem last_successful_cycle_decides (read_back : list RawRow -> DataFrame)
    (envs : nat -> CycleEnv) (k n : nat) (w : World) :
  driver_fault (envs (k + n)) = None ->
  (exists j, j < 3 /\ load_faults (envs (k + n)) j = None) ->
  extract_rows (table (envs (k + n))) <> [] ->
  str_accessor_ok (read_back (extract_rows (table (envs (k + n))))) = true ->
  csv_fault (envs (k + n)) = None ->
  json_open_fault (envs (k + n)) = None ->
  json_write_fault (envs (k + n)) = None ->
  served (world_of (start_auto_scraper read_back envs k (S n) w))
  = Ok (categorize (read_back (extract_rows (table (envs (k + n)))))).
Proof.
  intros Hd Hl Hr Ha Hc Ho Hw.
  replace (S n) with (n + 1) by lia.
  rewrite start_auto_scraper_app. unfold bind.
  destruct (start_auto_scraper_returns read_back envs n k w) as (w1 & t1 & E1 & _).
  rewrite E1. cbn [start_auto_scraper]. unfold bind, ret.
  destruct (successful_cycle_outcome read_back (envs (k + n)) w1 Hd Hl Hr Ha Hc Ho Hw)
    as (_ & _ & W).
  destruct (scraper_iteration read_back (envs (k + n)) w1) as [[w2 t2] r] eqn:E2.
  cbn [world_of fst] in W. subst w2.
  destruct r; cbn [world_of fst]; unfold served; now rewrite get_sensor_data_run.
Qed.

Lemma last_successful_cycle_decides_witness :
  served
    (world_of
       (start_auto_scraper text_frame
          (fun t => if Nat.eqb t 1 then quiet_env one_row_table
                    else dump_fault_env one_row_table)
          0 2 served_world))
  = Ok (categorize (text_frame (extract_rows one_row_table))).
Proof.
  refine (last_successful_cycle_decides text_frame
            (fun t => if Nat.eqb t 1 then quiet_env one_row_table
                      else dump_fault_env one_row_table)
            0 1 served_world eq_refl _ _ eq_refl eq_refl eq_refl eq_refl).
  - exists 0. split; [lia | reflexivity].
  - discriminate.
Defined.
